(** * TrafficLens: a shallow embedding of the sampling / differencing engine

    The development follows the single class of the library (the
    [TrafficLens] class with its constructor, [getCurrentStats],
    [checkProxyConnections], [start], [stop], [subscribe] and the two static
    formatting helpers).

    Conventions of the embedding
    - a JavaScript [number] that carries a counter, a rate, a port or a
      duration is an integer of [Z]; [NaN] and the infinities are outside the
      model.  Rates can be fractional: the statements name the subtractions
      the code performs and use no identity that rounding would break.  The
      formatting helpers take a rational of [Q]: every finite double is one,
      and dividing a double by 1024 is exact;
    - [x || d] on a number is [js_or]: [0] is the one falsy integer;
    - an optional property or a nullable field is an [option];
    - a promise of the system-information provider is a [Provided] value:
      either it resolved with data or it rejected;
    - [Date.now()] is an explicit argument;
    - a subscriber is known by its identity only (a [CallbackId]); what it is
      called with is recorded in a publish log.  While it runs it may call
      the public methods of the instance and it may throw; how it reacts is
      given from outside, like the provider's answers.  It does not write to
      the statistics object it is handed;
    - the interval timer is armed exactly while [intervalId] holds a handle:
      [setInterval] and [clearInterval] are called only where the field is
      assigned. *)

From Stdlib Require Import ZArith QArith Qround Qabs Bool List String Ascii Lia.
From Stdlib Require Import DecimalString DecimalPos DecimalZ.
Import ListNotations.

Local Open Scope string_scope.
Local Open Scope Z_scope.

(** ** JavaScript primitives used by the class *)

Module JS.

(** [x || d] where [x] is a number that may be missing. *)
Definition js_or (x : option Z) (d : Z) : Z :=
  match x with
  | Some v => if v =? 0 then d else v
  | None => d
  end.

(** Truthiness of a possibly missing number. *)
Definition truthy (x : option Z) : bool :=
  match x with
  | Some v => negb (v =? 0)
  | None => false
  end.

(** [Number.prototype.toString] on an integer. *)
Definition toString (n : Z) : string :=
  NilZero.string_of_int (Z.to_int n).

(** [String.prototype.includes]: [sub] occurs somewhere in [s]. *)
Fixpoint includes (s sub : string) : bool :=
  String.prefix sub s ||
  match s with
  | EmptyString => false
  | String _ rest => includes rest sub
  end.

(** Outcome of a call that may throw. *)
Inductive Result (A : Type) : Type :=
| Ok (a : A)
| Throw (msg : string).
Arguments Ok {A} a.
Arguments Throw {A} msg.

(** Outcome of awaiting a provider promise. *)
Inductive Provided (A : Type) : Type :=
| Resolved (a : A)
| Rejected.
Arguments Resolved {A} a.
Arguments Rejected {A}.

End JS.
Import JS.

(** ** Data model *)

(** [Config]: [updateInterval] is the optional property; [None] is a
    configuration object without it.  An object that has the property with
    the value [undefined] is not represented. *)
Record Config := mkConfig {
  proxyPort : Z;
  updateInterval : option Z
}.

(** [NetworkMetrics = VolumeMetrics & SpeedMetrics]. *)
Record NetworkMetrics := mkMetrics {
  upload : Z;
  download : Z;
  uploadSpeed : Z;
  downloadSpeed : Z
}.

(** [NetworkSnapshot extends NetworkMetrics] with the capture instant. *)
Record NetworkSnapshot := mkSnapshot {
  snapshot_metrics : NetworkMetrics;
  snapshot_timestamp : Z
}.

(** [ProxyMetrics extends NetworkMetrics] with the connection count. *)
Record ProxyMetrics := mkProxyMetrics {
  proxy_metrics : NetworkMetrics;
  activeConnections : Z
}.

Record TrafficStats := mkTrafficStats {
  proxied : ProxyMetrics;
  direct : NetworkMetrics;
  timestamp : Z
}.

(** The two provider records, restricted to the fields the class reads. *)
Record NetworkStatsData := mkNetworkStatsData {
  iface : string;
  operstate : string;
  rx_bytes : Z;
  tx_bytes : Z;
  rx_sec : Z;
  tx_sec : Z
}.

Record NetworkConnectionsData := mkNetworkConnectionsData {
  localAddress : string;
  localPort : string
}.

(** A subscriber, by identity; the handle [setInterval] returns (an object
    in Node, a non-zero integer in a browser: always truthy). *)
Definition CallbackId := nat.
Definition TimerId := positive.

(** The private fields of the class. *)
Record TrafficLens := mkTrafficLens {
  lastStats : option NetworkSnapshot;
  totalStats : TrafficStats;
  intervalId : option TimerId;
  callbacks : list CallbackId;
  config : Config
}.

(** Field updates, one per assignment form the class uses. *)
Definition set_lastStats (v : option NetworkSnapshot) (s : TrafficLens) :=
  mkTrafficLens v (totalStats s) (intervalId s) (callbacks s) (config s).
Definition set_totalStats (v : TrafficStats) (s : TrafficLens) :=
  mkTrafficLens (lastStats s) v (intervalId s) (callbacks s) (config s).
Definition set_intervalId (v : option TimerId) (s : TrafficLens) :=
  mkTrafficLens (lastStats s) (totalStats s) v (callbacks s) (config s).
Definition set_callbacks (v : list CallbackId) (s : TrafficLens) :=
  mkTrafficLens (lastStats s) (totalStats s) (intervalId s) v (config s).

Definition set_timestamp (v : Z) (t : TrafficStats) :=
  mkTrafficStats (proxied t) (direct t) v.
Definition set_proxied (v : ProxyMetrics) (t : TrafficStats) :=
  mkTrafficStats v (direct t) (timestamp t).
Definition set_direct (v : NetworkMetrics) (t : TrafficStats) :=
  mkTrafficStats (proxied t) v (timestamp t).
Definition set_activeConnections (v : Z) (p : ProxyMetrics) :=
  mkProxyMetrics (proxy_metrics p) v.

(** ** Construction *)

Definition zeroMetrics : NetworkMetrics := mkMetrics 0 0 0 0.

(** The field initialisers of the class; [now] is [Date.now()]. *)
Definition initialStats (now : Z) : TrafficStats :=
  mkTrafficStats (mkProxyMetrics zeroMetrics 0) zeroMetrics now.

(** [{ updateInterval: config.updateInterval || 5000, ...config }]: the
    spread comes last, so a property the caller supplied wins over the
    default computed before it. *)
Definition storedConfig (c : Config) : Config :=
  let dflt := js_or (updateInterval c) 5000 in
  mkConfig (proxyPort c)
           (Some (match updateInterval c with
                  | Some given => given
                  | None => dflt
                  end)).

(** The guard [config.updateInterval && config.updateInterval < 3000]: the
    comparison is reached only when the property is truthy. *)
Definition intervalTooShort (c : Config) : bool :=
  truthy (updateInterval c) &&
  match updateInterval c with
  | Some given => given <? 3000
  | None => false
  end.

(** [constructor(config)]. *)
Definition constructor (c : Config) (now : Z) : Result TrafficLens :=
  if intervalTooShort c
  then Throw "Update interval must be greater than 3 seconds"
  else Ok (mkTrafficLens None (initialStats now) None [] (storedConfig c)).

(** ** Sampler *)

(** The selection predicate of [getCurrentStats]. *)
Definition isMainInterface (stat : NetworkStatsData) : bool :=
  String.eqb (operstate stat) "up" && (0 <? rx_bytes stat).

(** [getCurrentStats()]: the [try] body on a resolved promise, the [catch]
    on a rejected one. *)
Definition getCurrentStats (networkStats : Provided (list NetworkStatsData))
    (now : Z) : option NetworkSnapshot :=
  match networkStats with
  | Resolved stats =>
      match find isMainInterface stats with
      | None => None
      | Some mainInterface =>
          Some {| snapshot_metrics :=
                    {| uploadSpeed := js_or (Some (tx_sec mainInterface)) 0;
                       downloadSpeed := js_or (Some (rx_sec mainInterface)) 0;
                       upload := js_or (Some (tx_bytes mainInterface)) 0;
                       download := js_or (Some (rx_bytes mainInterface)) 0 |};
                  snapshot_timestamp := now |}
      end
  | Rejected => None
  end.

(** What [checkProxyConnections] returns. *)
Record ProxyResults := mkProxyResults {
  pr_activeConnections : Z;
  pr_stats : option NetworkMetrics
}.

Definition onProxyPort (c : Config) (conn : NetworkConnectionsData) : bool :=
  String.eqb (localPort conn) (toString (proxyPort c)).

Definition carriedBy (proxyConnections : list NetworkConnectionsData)
    (stat : NetworkStatsData) : bool :=
  existsb (fun conn => includes (localAddress conn) (iface stat)) proxyConnections.

(** [checkProxyConnections()]: the connection table is awaited first, the
    interface statistics second; either rejection lands in the [catch]. *)
Definition checkProxyConnections (s : TrafficLens)
    (netConnections : Provided (list NetworkConnectionsData))
    (networkStats : Provided (list NetworkStatsData)) : ProxyResults :=
  match netConnections with
  | Rejected => mkProxyResults 0 None
  | Resolved conns =>
      match networkStats with
      | Rejected => mkProxyResults 0 None
      | Resolved stats =>
          let proxyConnections := filter (onProxyPort (config s)) conns in
          let proxyInterface := find (carriedBy proxyConnections) stats in
          {| pr_activeConnections := Z.of_nat (List.length proxyConnections);
             pr_stats :=
               match proxyInterface with
               | Some i => Some {| upload := tx_bytes i;
                                   download := rx_bytes i;
                                   uploadSpeed := tx_sec i;
                                   downloadSpeed := rx_sec i |}
               | None => None
               end |}
      end
  end.

(** ** Aggregator *)

(** [start()]: [handle] is what [setInterval] returns. *)
Definition start (handle : TimerId) (s : TrafficLens) : Result TrafficLens :=
  match intervalId s with
  | Some _ => Throw "Monitor is already running"
  | None => Ok (set_intervalId (Some handle) s)
  end.

(** [stop()]. *)
Definition stop (s : TrafficLens) : TrafficLens :=
  match intervalId s with
  | Some _ => set_intervalId None s
  | None => s
  end.

(** The closure [subscribe] returns:
    [this.callbacks = this.callbacks.filter((cb) => cb !== callback)]. *)
Definition keepOthers (callback : CallbackId) : CallbackId -> bool :=
  fun cb => negb (Nat.eqb cb callback).

Definition disposer (callback : CallbackId) (s : TrafficLens) : TrafficLens :=
  set_callbacks (filter (keepOthers callback) (callbacks s)) s.

(** [subscribe(callback)]: push, and hand back the closure. *)
Definition subscribe (callback : CallbackId) (s : TrafficLens)
    : TrafficLens * (TrafficLens -> TrafficLens) :=
  (set_callbacks (callbacks s ++ [callback]) s, disposer callback).

Definition getTrafficStats (s : TrafficLens) : TrafficStats := totalStats s.

(** One call of a subscriber: who was called, and the statistics object as it
    stood at the call. *)
Record Publish := mkPublish {
  subscriber : CallbackId;
  payload : TrafficStats
}.

(** What a subscriber may do to the instance while it is being called: the
    public methods that write a field.  [start()] is an async function, so a
    rejected start is a promise and never an exception in the subscriber. *)
Inductive Call :=
| CallStart (handle : TimerId)     (* start(); [handle] is what setInterval returns *)
| CallStop                         (* stop() *)
| CallSubscribe (cb : CallbackId)  (* subscribe(cb) *)
| CallDispose (cb : CallbackId).   (* a disposer of cb *)

Definition perform (c : Call) (s : TrafficLens) : TrafficLens :=
  match c with
  | CallStart handle =>
      match start handle s with
      | Ok s' => s'
      | Throw _ => s
      end
  | CallStop => stop s
  | CallSubscribe cb => fst (subscribe cb s)
  | CallDispose cb => disposer cb s
  end.

(** How one call of a subscriber goes: the calls it makes on the instance,
    in order, and whether it then throws instead of returning. *)
Record Reaction := mkReaction {
  calls : list Call;
  throws : bool
}.

(** A subscriber that only looks at what it is given. *)
Definition quiet : Reaction := mkReaction [] false.

Definition react (r : Reaction) (s : TrafficLens) : TrafficLens :=
  fold_left (fun s' c => perform c s') (calls r) s.

(** What one firing of the timer callback gets from outside the instance:
    the promise awaited by [getCurrentStats] with the instant it stamps, the
    two promises awaited by [checkProxyConnections], the instant read for
    [totalStats.timestamp], and how the subscribers react when they are
    called, by position in the fan-out (a missing one is [quiet]). *)
Record TickInput := mkTickInput {
  tick_networkStats : Provided (list NetworkStatsData);
  tick_captureTime : Z;
  tick_netConnections : Provided (list NetworkConnectionsData);
  tick_proxyNetworkStats : Provided (list NetworkStatsData);
  tick_publishTime : Z;
  tick_reactions : list Reaction
}.

(** The body of [if (this.lastStats) { ... }] up to the fan-out: the
    assignments to [totalStats], in source order. *)
Definition updateTotals (currentStats : NetworkMetrics) (proxyResults : ProxyResults)
    (now : Z) (t : TrafficStats) : TrafficStats :=
  let t := set_timestamp now t in
  let t := set_proxied
             (set_activeConnections (pr_activeConnections proxyResults) (proxied t)) t in
  let t := match pr_stats proxyResults with
           | Some stats =>
               set_proxied {| proxy_metrics := stats;
                              activeConnections := pr_activeConnections proxyResults |} t
           | None => t
           end in
  set_direct
    {| upload := upload currentStats
                 - js_or (option_map upload (pr_stats proxyResults)) 0;
       download := download currentStats
                   - js_or (option_map download (pr_stats proxyResults)) 0;
       uploadSpeed := uploadSpeed currentStats
                      - js_or (option_map uploadSpeed (pr_stats proxyResults)) 0;
       downloadSpeed := downloadSpeed currentStats
                        - js_or (option_map downloadSpeed (pr_stats proxyResults)) 0 |}
    t.

(** [this.callbacks.forEach((callback) => callback(this.totalStats))].
    [forEach] walks the array it was called on up to the length that array
    had then: a [push] by [subscribe] lands beyond that length and a disposer
    binds [this.callbacks] to a new array, so [cbs] is the list as it stood
    when the fan-out began.  [this.totalStats] is read at each call.  There
    is no [try] around the calls: the first subscriber that throws ends the
    fan-out, and the flag returned says so. *)
Fixpoint fanOut (cbs : list CallbackId) (reactions : list Reaction)
    (s : TrafficLens) : TrafficLens * list Publish * bool :=
  match cbs with
  | [] => (s, [], false)
  | callback :: rest =>
      let call := mkPublish callback (totalStats s) in
      let r := hd quiet reactions in
      let s1 := react r s in
      if throws r
      then (s1, [call], true)
      else
        let '(s2, out, threw) := fanOut rest (tl reactions) s1 in
        (s2, call :: out, threw)
  end.

(** The timer callback once its awaits are over.  The instance is read and
    written only from here on ([config] apart, which never changes), and this
    part is synchronous: nothing but the subscribers it calls runs in between.
    When a subscriber throws, the exception leaves the callback and the
    assignment to [lastStats] after the fan-out is not reached. *)
Definition intervalCallback (inp : TickInput) (s : TrafficLens)
    : TrafficLens * list Publish :=
  let currentStats := getCurrentStats (tick_networkStats inp) (tick_captureTime inp) in
  let proxyResults :=
    checkProxyConnections s (tick_netConnections inp) (tick_proxyNetworkStats inp) in
  match currentStats with
  | None => (s, [])
  | Some cur =>
      match lastStats s with
      | Some _ =>
          let t := updateTotals (snapshot_metrics cur) proxyResults
                                (tick_publishTime inp) (totalStats s) in
          let '(s', out, threw) :=
            fanOut (callbacks s) (tick_reactions inp) (set_totalStats t s) in
          (if threw then s' else set_lastStats (Some cur) s', out)
      | None => (set_lastStats (Some cur) s, [])
      end
  end.




(** The counters of one provider record, as both captures copy them. *)
Definition countersOf (i : NetworkStatsData) : NetworkMetrics :=
  {| upload := tx_bytes i;
     download := rx_bytes i;
     uploadSpeed := tx_sec i;
     downloadSpeed := rx_sec i |}.

(** ** The instance on the event loop *)

(** The instance together with what the runtime holds for it: the next timer
    handle, the number of timer callbacks suspended in their awaits, and every
    subscriber call made so far. *)
Record World := mkWorld {
  instance : TrafficLens;
  nextTimer : TimerId;
  inFlight : nat;
  published : list Publish
}.

Inductive Event :=
| EvStart                          (* a call of start() *)
| EvStop                           (* a call of stop() *)
| EvSubscribe (cb : CallbackId)    (* a call of subscribe(cb) *)
| EvDispose (cb : CallbackId)      (* a call of a disposer subscribe(cb) returned *)
| EvTimer                          (* the interval timer fires: a tick begins *)
| EvResume (inp : TickInput).      (* the awaits of one begun tick are over *)

(** One event.  [None]: the event cannot happen in this world (a disarmed
    timer does not fire, and only a begun tick can resume).  A rejected
    [start()] happens and changes nothing.  A tick whose subscriber throws
    ends in a rejected promise; the world goes on after it, as it does when
    the rejection is handled. *)
Definition step (w : World) (e : Event) : option World :=
  match e with
  | EvStart =>
      match start (nextTimer w) (instance w) with
      | Ok s' => Some (mkWorld s' (Pos.succ (nextTimer w)) (inFlight w) (published w))
      | Throw _ => Some w
      end
  | EvStop =>
      Some (mkWorld (stop (instance w)) (nextTimer w) (inFlight w) (published w))
  | EvSubscribe cb =>
      Some (mkWorld (fst (subscribe cb (instance w)))
                    (nextTimer w) (inFlight w) (published w))
  | EvDispose cb =>
      Some (mkWorld (disposer cb (instance w))
                    (nextTimer w) (inFlight w) (published w))
  | EvTimer =>
      match intervalId (instance w) with
      | Some _ => Some (mkWorld (instance w) (nextTimer w) (S (inFlight w)) (published w))
      | None => None
      end
  | EvResume inp =>
      match inFlight w with
      | O => None
      | S n =>
          let (s', out) := intervalCallback inp (instance w) in
          Some (mkWorld s' (nextTimer w) n (published w ++ out))
      end
  end.

Fixpoint run (w : World) (evs : list Event) : option World :=
  match evs with
  | [] => Some w
  | e :: rest =>
      match step w e with
      | Some w' => run w' rest
      | None => None
      end
  end.

Definition newWorld (s : TrafficLens) : World := mkWorld s 1%positive O [].

(** Shapes of traces used in the statements. *)
Definition isStart (e : Event) : bool :=
  match e with EvStart => true | _ => false end.
Definition isTimer (e : Event) : bool :=
  match e with EvTimer => true | _ => false end.
Definition isResume (e : Event) : bool :=
  match e with EvResume _ => true | _ => false end.

Definition isCallStart (c : Call) : bool :=
  match c with CallStart _ => true | _ => false end.

(** [start()] is called in the event: at top level, or by a subscriber of
    the tick that resumes. *)
Definition callsStart (e : Event) : bool :=
  match e with
  | EvStart => true
  | EvResume inp =>
      existsb (fun r => existsb isCallStart (calls r)) (tick_reactions inp)
  | _ => false
  end.

(** No subscriber of the tick that resumes calls a method of the
    instance. *)
Definition callsNothing (inp : TickInput) : bool :=
  forallb (fun r => match calls r with [] => true | _ => false end)
          (tick_reactions inp).

(** A subscriber of the tick that resumes throws. *)
Definition hasThrow (inp : TickInput) : bool :=
  existsb throws (tick_reactions inp).

(** A resumed tick whose proxy view matched an interface, for the instance
    [s]. *)
Definition isMatched (s : TrafficLens) (e : Event) : bool :=
  match e with
  | EvResume inp =>
      match pr_stats (checkProxyConnections s (tick_netConnections inp)
                                            (tick_proxyNetworkStats inp)) with
      | Some _ => true
      | None => false
      end
  | _ => false
  end.

Definition isCallSubscribeOf (cb : CallbackId) (c : Call) : bool :=
  match c with CallSubscribe c' => Nat.eqb c' cb | _ => false end.

(** [subscribe] is called with the callback [cb] in the event: at top level,
    or by a subscriber of the tick that resumes. *)
Definition isSubscribeOf (cb : CallbackId) (e : Event) : bool :=
  match e with
  | EvSubscribe c => Nat.eqb c cb
  | EvResume inp =>
      existsb (fun r => existsb (isCallSubscribeOf cb) (calls r)) (tick_reactions inp)
  | _ => false
  end.

(** A resumed tick whose interface capture is present. *)
Definition isSuccessful (e : Event) : bool :=
  match e with
  | EvResume inp =>
      match getCurrentStats (tick_networkStats inp) (tick_captureTime inp) with
      | Some _ => true
      | None => false
      end
  | _ => false
  end.

(** The world still has the configuration of [s0] and zero volume and
    speed in [proxied], in the instance and in every published object. *)
Definition proxiedStillZero (s0 : TrafficLens) (w : World) : Prop :=
  config (instance w) = config s0 /\
  proxy_metrics (proxied (totalStats (instance w))) = zeroMetrics /\
  forall p, In p (published w) -> proxy_metrics (proxied (payload p)) = zeroMetrics.

(** ** Formatting *)

Module Format.

(** Decimal digits of a non-negative integer. *)
Definition digits (n : Z) : string := NilZero.string_of_uint (N.to_uint (Z.to_N n)).

Fixpoint zeros (k : nat) : string :=
  match k with
  | O => ""
  | S k' => String "0" (zeros k')
  end.

(** [Number.prototype.toFixed(f)] on a finite number below 10^21: the sign
    is split off, [n] is the integer nearest to [x * 10^f] (the larger one
    on a tie), its digits are padded to [f + 1] places and the point is put
    before the last [f]. *)
Definition toFixed (f : nat) (x : Q) : string :=
  let neg := negb (Qle_bool 0 x) in
  let x := if neg then Qopp x else x in
  let n := Qfloor (x * inject_Z (10 ^ Z.of_nat f) + (1 # 2)) in
  let m := digits n in
  let m := if (f =? 0)%nat then m
           else
             let m := if (String.length m <=? f)%nat
                      then zeros (f + 1 - String.length m) ++ m
                      else m in
             let k := String.length m in
             substring 0 (k - f) m ++ "." ++ substring (k - f) f m in
  (if neg then "-" else "") ++ m.

Definition units : list string := ["B"; "KB"; "MB"; "GB"].

(** The loop guard [size >= 1024 && unitIndex < units.length - 1]. *)
Definition guard (size : Q) (unitIndex : nat) : bool :=
  Qle_bool (inject_Z 1024) size && (unitIndex <? List.length units - 1)%nat.

(** The [while] loop, run for at most [fuel] rounds. *)
Fixpoint loop (fuel : nat) (size : Q) (unitIndex : nat) : Q * nat :=
  match fuel with
  | O => (size, unitIndex)
  | S fuel' =>
      if guard size unitIndex
      then loop fuel' (size / inject_Z 1024) (S unitIndex)
      else (size, unitIndex)
  end.

(** [formatBytes(bytes)]: the index climbs to [units.length - 1] at most,
    so that many rounds are enough ([loop_exits_on_guard]). *)
Definition formatBytes (bytes : Q) : string :=
  let (size, unitIndex) := loop (List.length units - 1) bytes 0 in
  toFixed 2 size ++ " " ++ nth unitIndex units "undefined".

(** [formatSpeed(bytesPerSec)]. *)
Definition formatSpeed (bytesPerSec : Q) : string :=
  formatBytes bytesPerSec ++ "/s".

End Format.

(** ** Fixtures

    The provider data of the unit tests ([mock-data]), and two traces built
    from it. *)

Module Fixtures.

Definition mockNetworkStats : list NetworkStatsData :=
  [ {| iface := "eth0"; operstate := "up";
       rx_bytes := 1000; tx_bytes := 2000; rx_sec := 100; tx_sec := 200 |} ].

Definition mockNetworkConnections : list NetworkConnectionsData :=
  [ {| localAddress := "eth0"; localPort := "1080" |};
    {| localAddress := "eth0"; localPort := "1080" |} ].

(** Two connections on the proxy port whose local address names no
    interface. *)
Definition loopbackConnections : list NetworkConnectionsData :=
  [ {| localAddress := "127.0.0.1"; localPort := "1080" |};
    {| localAddress := "127.0.0.1"; localPort := "1080" |} ].

(** [new TrafficLens({ proxyPort: 1080 })] at instant 0. *)
Definition monitor : TrafficLens :=
  mkTrafficLens None (initialStats 0) None [] (mkConfig 1080 (Some 5000)).

(** A tick whose proxy view matches [eth0]. *)
Definition matchedTick (now : Z) : TickInput :=
  mkTickInput (Resolved mockNetworkStats) now
              (Resolved mockNetworkConnections) (Resolved mockNetworkStats) now [].

(** A tick whose proxy view matches no interface. *)
Definition unmatchedTick (now : Z) : TickInput :=
  mkTickInput (Resolved mockNetworkStats) now
              (Resolved loopbackConnections) (Resolved mockNetworkStats) now [].

(** A tick whose interface statistics promise rejects. *)
Definition failedTick (now : Z) : TickInput :=
  mkTickInput Rejected now (Resolved mockNetworkConnections) Rejected now [].

(** A second interface, down, with larger counters than [eth0], and two
    proxy connections bound to it. *)
Definition tunnelStats : list NetworkStatsData :=
  mockNetworkStats ++
  [ {| iface := "tun0"; operstate := "down";
       rx_bytes := 5000; tx_bytes := 6000; rx_sec := 500; tx_sec := 600 |} ].

Definition tunnelConnections : list NetworkConnectionsData :=
  [ {| localAddress := "tun0"; localPort := "1080" |};
    {| localAddress := "tun0"; localPort := "1080" |} ].

Definition tunnelTick (now : Z) : TickInput :=
  mkTickInput (Resolved tunnelStats) now
              (Resolved tunnelConnections) (Resolved tunnelStats) now [].

(** Subscribe, start, seed tick, one publishing tick with a matched proxy
    interface; a third tick has begun. *)
Definition warmUp : list Event :=
  [ EvSubscribe 0%nat; EvStart;
    EvTimer; EvResume (matchedTick 5000);
    EvTimer; EvResume (matchedTick 10000);
    EvTimer ].

(** The instance [warmUp] leads to, and the instance after its seed tick. *)
Definition warmMonitor : TrafficLens :=
  mkTrafficLens (Some (mkSnapshot (mkMetrics 2000 1000 200 100) 10000))
                (mkTrafficStats (mkProxyMetrics (mkMetrics 2000 1000 200 100) 2)
                                zeroMetrics 10000)
                (Some 1%positive) [0%nat] (mkConfig 1080 (Some 5000)).

Definition seededMonitor : TrafficLens :=
  mkTrafficLens (Some (mkSnapshot (mkMetrics 2000 1000 200 100) 5000))
                (initialStats 0)
                (Some 1%positive) [0%nat] (mkConfig 1080 (Some 5000)).

(** The seeded instance with a second subscriber. *)
Definition seededPair : TrafficLens := set_callbacks [0%nat; 1%nat] seededMonitor.

(** Ticks with the data of [matchedTick] whose first subscriber calls
    [stop()], calls the disposer of the second subscriber, or throws. *)
Definition stoppingTick (now : Z) : TickInput :=
  mkTickInput (Resolved mockNetworkStats) now
              (Resolved mockNetworkConnections) (Resolved mockNetworkStats) now
              [mkReaction [CallStop] false].

Definition disposingTick (now : Z) : TickInput :=
  mkTickInput (Resolved mockNetworkStats) now
              (Resolved mockNetworkConnections) (Resolved mockNetworkStats) now
              [mkReaction [CallDispose 1%nat] false].

Definition throwingTick (now : Z) : TickInput :=
  mkTickInput (Resolved mockNetworkStats) now
              (Resolved mockNetworkConnections) (Resolved mockNetworkStats) now
              [mkReaction [] true].

(** Subscribe, start, a tick whose capture fails; a second tick has
    begun. *)
Definition coldStart : list Event :=
  [ EvSubscribe 0%nat; EvStart;
    EvTimer; EvResume (failedTick 5000);
    EvTimer ].

(** Subscribe, start, seed tick, then a tick begins and [stop()] is called
    while it awaits the provider. *)
Definition stopWhileAwaiting : list Event :=
  [ EvSubscribe 0%nat; EvStart;
    EvTimer; EvResume (matchedTick 5000);
    EvTimer; EvStop ].

(** Subscribe, start, seed tick, stop; start again and a tick begins. *)
Definition restart : list Event :=
  [ EvSubscribe 0%nat; EvStart;
    EvTimer; EvResume (matchedTick 5000);
    EvStop; EvStart; EvTimer ].

End Fixtures.

(** * Properties *)

(** ** Helper facts *)

Lemma js_or_zero (v : Z) : js_or (Some v) 0 = v.
Proof.
  unfold js_or. destruct (Z.eqb_spec v 0); congruence.
Qed.

Lemma constructor_fixture :
  constructor (mkConfig 1080 None) 0 = Ok Fixtures.monitor.
Proof. reflexivity. Qed.

(** ** Construction *)

Section Construction.

Variable port now : Z.

(** A non-zero interval below the minimum is rejected. *)
Lemma constructor_rejects_nonzero_below_minimum (n : Z) :
  n <> 0 -> n < 3000 ->
  constructor (mkConfig port (Some n)) now
  = Throw "Update interval must be greater than 3 seconds".
Proof.
  intros Hn Hlt. unfold constructor, intervalTooShort; simpl.
  destruct (Z.eqb_spec n 0) as [|_]; [contradiction|]. simpl.
  destruct (Z.ltb_spec n 3000) as [_|]; [reflexivity|lia].
Qed.

(** An interval of at least the minimum is accepted and stored as given. *)
Lemma constructor_accepts_from_minimum (n : Z) :
  3000 <= n ->
  constructor (mkConfig port (Some n)) now
  = Ok (mkTrafficLens None (initialStats now) None [] (mkConfig port (Some n))).
Proof.
  intros Hge. unfold constructor, intervalTooShort; simpl.
  destruct (Z.eqb_spec n 0) as [|_]; [lia|]. simpl.
  destruct (Z.ltb_spec n 3000) as [|_]; [lia|reflexivity].
Qed.

(** Without the property, the default of 5000 is stored. *)
Lemma constructor_default_interval :
  constructor (mkConfig port None) now
  = Ok (mkTrafficLens None (initialStats now) None [] (mkConfig port (Some 5000))).
Proof. reflexivity. Qed.

(** C3 (the defect).  [updateInterval: 0] is strictly less than 3000, yet
    the constructor does not throw: the guard tests the truthiness of the
    property first, and [0] is falsy.  The instance is built, and because
    the spread of the caller's object comes after the default, the stored
    interval is the caller's [0], not 5000. *)
Theorem constructor_accepts_zero_interval :
  0 < 3000 /\
  constructor (mkConfig port (Some 0)) now
  = Ok (mkTrafficLens None (initialStats now) None [] (mkConfig port (Some 0))).
Proof. split; [lia|reflexivity]. Qed.

End Construction.

(** ** Formatting *)

Section Formatting.

Import Format.

(** The bounded loop of [formatBytes] stops because its guard fails, never
    because the rounds ran out. *)
Lemma loop_exits_on_guard (fuel : nat) : forall size unitIndex,
  (List.length units - 1 - unitIndex <= fuel)%nat ->
  guard (fst (loop fuel size unitIndex)) (snd (loop fuel size unitIndex)) = false.
Proof.
  induction fuel as [|fuel IH]; intros size unitIndex Hfuel; simpl.
  - unfold guard. replace (unitIndex <? List.length units - 1)%nat with false.
    + apply andb_false_r.
    + symmetry. apply Nat.ltb_ge. lia.
  - destruct (guard size unitIndex) eqn:Hg; simpl; [|exact Hg].
    apply IH. lia.
Qed.

(** More rounds than [units.length - 1] change nothing. *)
Lemma loop_fuel_irrelevant (extra : nat) : forall fuel size unitIndex,
  (List.length units - 1 - unitIndex <= fuel)%nat ->
  loop (fuel + extra) size unitIndex = loop fuel size unitIndex.
Proof.
  intros fuel; induction fuel as [|fuel IH]; intros size unitIndex Hfuel.
  - destruct extra as [|extra]; simpl; [reflexivity|].
    unfold guard. replace (unitIndex <? List.length units - 1)%nat with false.
    + now rewrite andb_false_r.
    + symmetry. apply Nat.ltb_ge. lia.
  - simpl. destruct (guard size unitIndex); [|reflexivity].
    apply IH. lia.
Qed.

(** C9.  [formatBytes] at 1024, 1024^2 and 1024^3 gives "1.00 KB",
    "1.00 MB" and "1.00 GB", and [formatSpeed x] is [formatBytes x]
    followed by "/s" for every number [x]. *)
Theorem formatting_contract :
  formatBytes (inject_Z 1024) = "1.00 KB" /\
  formatBytes (inject_Z 1048576) = "1.00 MB" /\
  formatBytes (inject_Z 1073741824) = "1.00 GB" /\
  forall x : Q, formatSpeed x = formatBytes x ++ "/s".
Proof.
  repeat split; try (vm_compute; reflexivity).
Qed.

End Formatting.

(** ** Subscription registry *)

Section Registry.

Lemma keepOthers_length (cb : CallbackId) (l : list CallbackId) :
  (List.length (filter (keepOthers cb) l) + count_occ Nat.eq_dec l cb
   = List.length l)%nat.
Proof.
  induction l as [|c l IH]; simpl; [reflexivity|].
  unfold keepOthers at 1.
  destruct (Nat.eq_dec c cb) as [->|Hne].
  - rewrite Nat.eqb_refl; simpl. lia.
  - apply Nat.eqb_neq in Hne. rewrite Hne; simpl. lia.
Qed.

Lemma keepOthers_count (cb c : CallbackId) (l : list CallbackId) :
  c <> cb ->
  count_occ Nat.eq_dec (filter (keepOthers cb) l) c = count_occ Nat.eq_dec l c.
Proof.
  intros Hc. induction l as [|d l IH]; simpl; [reflexivity|].
  unfold keepOthers at 1.
  destruct (Nat.eqb_spec d cb) as [->|Hd]; simpl.
  - destruct (Nat.eq_dec cb c); [congruence|exact IH].
  - destruct (Nat.eq_dec d c); rewrite IH; reflexivity.
Qed.

Lemma keepOthers_absent (cb : CallbackId) (l : list CallbackId) :
  ~ In cb l -> filter (keepOthers cb) l = l.
Proof.
  induction l as [|c l IH]; simpl; intros Hn; [reflexivity|].
  unfold keepOthers at 1.
  destruct (Nat.eqb_spec c cb) as [->|_]; simpl.
  - exfalso. apply Hn. now left.
  - f_equal. apply IH. intros H. apply Hn. now right.
Qed.

Lemma keepOthers_snoc (cb : CallbackId) (l : list CallbackId) :
  filter (keepOthers cb) (l ++ [cb]) = filter (keepOthers cb) l.
Proof.
  rewrite filter_app; simpl. unfold keepOthers at 2.
  rewrite Nat.eqb_refl; simpl. apply app_nil_r.
Qed.

Lemma keepOthers_idempotent (cb : CallbackId) (l : list CallbackId) :
  filter (keepOthers cb) (filter (keepOthers cb) l) = filter (keepOthers cb) l.
Proof.
  induction l as [|c l IH]; simpl; [reflexivity|].
  destruct (keepOthers cb c) eqn:Hk; simpl; [rewrite Hk, IH|]; auto.
Qed.

Variable s : TrafficLens.
Variable cb : CallbackId.

(** C7 (as the code has it).  After [subscribe(cb)] and a call of the
    disposer it returned, the list is the earlier list without any entry
    identical to [cb]: the count is the earlier count less the number of
    earlier registrations of [cb] (unchanged when there was none), every
    other callback keeps its registrations, and a second call of the
    disposer changes nothing. *)
Theorem subscribe_then_dispose :
  let s1 := fst (subscribe cb s) in
  let dispose := snd (subscribe cb s) in
  callbacks (dispose s1) = filter (keepOthers cb) (callbacks s) /\
  (List.length (callbacks (dispose s1)) + count_occ Nat.eq_dec (callbacks s) cb
   = List.length (callbacks s))%nat /\
  ~ In cb (callbacks (dispose s1)) /\
  (forall c, c <> cb ->
     count_occ Nat.eq_dec (callbacks (dispose s1)) c
     = count_occ Nat.eq_dec (callbacks s) c) /\
  dispose (dispose s1) = dispose s1.
Proof.
  simpl. unfold disposer; simpl.
  rewrite keepOthers_snoc. repeat split.
  - apply keepOthers_length.
  - intros Hin. apply filter_In in Hin. destruct Hin as [_ Hk].
    unfold keepOthers in Hk. now rewrite Nat.eqb_refl in Hk.
  - intros c Hc. now apply keepOthers_count.
  - unfold set_callbacks; simpl. now rewrite keepOthers_idempotent.
Qed.

(** With no earlier registration of [cb], the instance is back to what it
    was. *)
Lemma subscribe_then_dispose_new_callback :
  ~ In cb (callbacks s) ->
  snd (subscribe cb s) (fst (subscribe cb s)) = s.
Proof.
  intros Hn. simpl. unfold disposer; simpl.
  rewrite keepOthers_snoc, (keepOthers_absent _ _ Hn).
  destruct s; reflexivity.
Qed.

End Registry.

(** C7 (as stated) fails: with [cb] already registered once, subscribing it
    again and calling the new disposer leaves no subscriber where there was
    one. *)
Lemma subscribe_then_dispose_drops_duplicates :
  let s := fst (subscribe 7%nat Fixtures.monitor) in
  let s1 := fst (subscribe 7%nat s) in
  let dispose := snd (subscribe 7%nat s) in
  List.length (callbacks s) = 1%nat /\
  List.length (callbacks (dispose s1)) = 0%nat /\
  List.length (callbacks (dispose s1)) <> List.length (callbacks s).
Proof. repeat split. simpl. discriminate. Qed.

(** ** Start and stop *)

Section Control.

(** C8.  While the instance is running, [start()] throws, whatever handle
    a timer would have had, and the call changes nothing: the armed timer,
    the instance, the ticks in flight and the publish log are as before. *)
Theorem start_while_running_rejected (w : World) (h : TimerId) :
  intervalId (instance w) = Some h ->
  (forall h', start h' (instance w) = Throw "Monitor is already running") /\
  step w EvStart = Some w.
Proof.
  intros Hrun. unfold step, start. rewrite Hrun. split; reflexivity.
Qed.

(** C10.  [stop()] leaves the held snapshot, the live statistics, the
    subscribers and the configuration as they were and clears the timer
    handle; a [start()] after it succeeds and still holds the snapshot
    from before the stop. *)
Theorem stop_changes_only_timer (s : TrafficLens) :
  lastStats (stop s) = lastStats s /\
  totalStats (stop s) = totalStats s /\
  callbacks (stop s) = callbacks s /\
  config (stop s) = config s /\
  intervalId (stop s) = None /\
  forall h, exists s',
    start h (stop s) = Ok s' /\
    lastStats s' = lastStats s /\
    totalStats s' = totalStats s /\
    intervalId s' = Some h.
Proof.
  unfold stop. destruct (intervalId s) eqn:Hid; simpl; repeat split; auto.
  - intros h. eexists. split; [reflexivity|]. simpl. auto.
  - intros h. unfold start. rewrite Hid. eexists. split; [reflexivity|].
    simpl. auto.
Qed.

End Control.

(** C8, at an instance started once. *)
Lemma start_while_running_rejected_witness :
  exists w, run (newWorld Fixtures.monitor) [EvStart] = Some w /\
    intervalId (instance w) = Some 1%positive /\
    (forall h', start h' (instance w) = Throw "Monitor is already running") /\
    step w EvStart = Some w.
Proof.
  eexists. split; [reflexivity|]. split; [reflexivity|].
  apply (start_while_running_rejected _ 1%positive). reflexivity.
Defined.

(** ** One tick *)

Section Tick.

Lemma find_all_false {A} (f : A -> bool) (l : list A) :
  (forall x, In x l -> f x = false) -> find f l = None.
Proof.
  induction l as [|a l IH]; simpl; intros H; [reflexivity|].
  rewrite (H a (or_introl eq_refl)). apply IH. intros x Hx. apply H. now right.
Qed.

(** What a subscriber can reach through the public methods: the timer
    handle and the subscriber list, never the statistics, the baseline or the
    configuration. *)
Lemma perform_frame (c : Call) (s : TrafficLens) :
  totalStats (perform c s) = totalStats s /\
  lastStats (perform c s) = lastStats s /\
  config (perform c s) = config s.
Proof.
  destruct c as [h| |cb|cb]; simpl; auto.
  - unfold start. destruct (intervalId s); simpl; auto.
  - unfold stop. destruct (intervalId s); simpl; auto.
Qed.

Lemma react_frame (r : Reaction) (s : TrafficLens) :
  totalStats (react r s) = totalStats s /\
  lastStats (react r s) = lastStats s /\
  config (react r s) = config s.
Proof.
  unfold react. generalize (calls r) as cs. intros cs. revert s.
  induction cs as [|c cs IH]; intros s; simpl; [auto|].
  destruct (IH (perform c s)) as (Ht & Hl & Hc).
  destruct (perform_frame c s) as (Ht' & Hl' & Hc').
  rewrite Ht, Hl, Hc. auto.
Qed.

Lemma fanOut_frame (cbs : list CallbackId) : forall reactions s,
  totalStats (fst (fst (fanOut cbs reactions s))) = totalStats s /\
  lastStats (fst (fst (fanOut cbs reactions s))) = lastStats s /\
  config (fst (fst (fanOut cbs reactions s))) = config s.
Proof.
  induction cbs as [|cb cbs IH]; intros reactions s; simpl; [auto|].
  destruct (react_frame (hd quiet reactions) s) as (Ht & Hl & Hc).
  destruct (throws (hd quiet reactions)); simpl; [auto|].
  specialize (IH (tl reactions) (react (hd quiet reactions) s)).
  destruct (fanOut cbs (tl reactions) (react (hd quiet reactions) s))
    as [[s2 out] threw]. simpl in *.
  destruct IH as (Ht2 & Hl2 & Hc2). rewrite Ht2, Hl2, Hc2. auto.
Qed.

Lemma fanOut_payload (cbs : list CallbackId) : forall reactions s p,
  In p (snd (fst (fanOut cbs reactions s))) ->
  payload p = totalStats s /\ In (subscriber p) cbs.
Proof.
  induction cbs as [|cb cbs IH]; intros reactions s p; simpl; [intros []|].
  destruct (react_frame (hd quiet reactions) s) as (Ht & _ & _).
  destruct (throws (hd quiet reactions)); simpl.
  - intros [<-|[]]. simpl. auto.
  - specialize (IH (tl reactions) (react (hd quiet reactions) s) p).
    destruct (fanOut cbs (tl reactions) (react (hd quiet reactions) s))
      as [[s2 out] threw]. simpl in *.
    intros [<-|Hin]; simpl; [auto|].
    destruct (IH Hin) as [Hp Hs]. rewrite Hp, Ht. auto.
Qed.

Variable inp : TickInput.

(** Whatever a tick publishes is the live statistics object after the
    assignments of that tick, and the tick had a capture and a baseline. *)
Lemma published_payload (s : TrafficLens) (p : Publish) :
  In p (snd (intervalCallback inp s)) ->
  exists cur last,
    getCurrentStats (tick_networkStats inp) (tick_captureTime inp) = Some cur /\
    lastStats s = Some last /\
    In (subscriber p) (callbacks s) /\
    payload p = updateTotals (snapshot_metrics cur)
                  (checkProxyConnections s (tick_netConnections inp)
                                         (tick_proxyNetworkStats inp))
                  (tick_publishTime inp) (totalStats s) /\
    payload p = getTrafficStats (fst (intervalCallback inp s)).
Proof.
  unfold intervalCallback.
  destruct (getCurrentStats _ _) as [cur|]; [|intros []].
  destruct (lastStats s) as [last|]; [|intros []].
  match goal with
  | |- context [fanOut ?cbs ?rs ?s0] =>
      pose proof (fanOut_payload cbs rs s0 p) as Hpay;
      pose proof (fanOut_frame cbs rs s0) as (Htot & _ & _);
      destruct (fanOut cbs rs s0) as [[s' out] threw]
  end.
  simpl in *. intros Hin. destruct (Hpay Hin) as [Hp Hcb].
  exists cur, last. repeat split; auto.
  unfold getTrafficStats. rewrite Hp. destruct threw; simpl; congruence.
Qed.

(** A tick with no baseline held stores the capture and does nothing
    else. *)
Lemma seed_tick (s : TrafficLens) (cur : NetworkSnapshot) :
  lastStats s = None ->
  getCurrentStats (tick_networkStats inp) (tick_captureTime inp) = Some cur ->
  intervalCallback inp s = (set_lastStats (Some cur) s, []).
Proof.
  intros Hlast Hcur. unfold intervalCallback. now rewrite Hcur, Hlast.
Qed.

(** The three ways a tick can go: no capture, a seed, or a fan-out.  In the
    last, the statistics are those computed in the tick, whatever the
    subscribers do. *)
Lemma intervalCallback_cases (s : TrafficLens) :
  intervalCallback inp s = (s, []) \/
  (exists cur, intervalCallback inp s = (set_lastStats (Some cur) s, [])) \/
  (exists cur last,
     getCurrentStats (tick_networkStats inp) (tick_captureTime inp) = Some cur /\
     lastStats s = Some last /\
     totalStats (fst (intervalCallback inp s))
     = updateTotals (snapshot_metrics cur)
         (checkProxyConnections s (tick_netConnections inp)
                                (tick_proxyNetworkStats inp))
         (tick_publishTime inp) (totalStats s) /\
     config (fst (intervalCallback inp s)) = config s /\
     lastStats (fst (intervalCallback inp s)) <> None).
Proof.
  unfold intervalCallback.
  destruct (getCurrentStats _ _) as [cur|]; [|now left].
  destruct (lastStats s) as [last|] eqn:Hlast; [|right; left; now exists cur].
  right; right. exists cur, last.
  match goal with
  | |- context [fanOut ?cbs ?rs ?s0] =>
      pose proof (fanOut_frame cbs rs s0) as (Htot & Hl & Hc);
      destruct (fanOut cbs rs s0) as [[s' out] threw]
  end.
  simpl in *. repeat split.
  - now destruct threw.
  - now destruct threw.
  - destruct threw; simpl; [|discriminate]. rewrite Hl, Hlast. discriminate.
Qed.

(** C6.  When the interface statistics promise rejects, or resolves with
    no interface that is up with a positive received-byte counter, the
    capture is absent (a value, not an exception), the tick leaves the
    instance exactly as it was (held snapshot and live statistics
    included) and calls no subscriber. *)
Theorem absent_capture_skips_tick (w : World) :
  (tick_networkStats inp = Rejected \/
   exists stats, tick_networkStats inp = Resolved stats /\
                 forall st, In st stats -> isMainInterface st = false) ->
  getCurrentStats (tick_networkStats inp) (tick_captureTime inp) = None /\
  intervalCallback inp (instance w) = (instance w, []) /\
  forall n, inFlight w = S n ->
    step w (EvResume inp)
    = Some (mkWorld (instance w) (nextTimer w) n (published w)).
Proof.
  intros Habsent.
  assert (Hnone : getCurrentStats (tick_networkStats inp) (tick_captureTime inp) = None).
  { destruct Habsent as [-> | [stats [-> Hno]]]; simpl; [reflexivity|].
    now rewrite (find_all_false _ _ Hno). }
  assert (Hskip : intervalCallback inp (instance w) = (instance w, [])).
  { unfold intervalCallback. now rewrite Hnone. }
  repeat split; auto.
  intros n Hn. unfold step. rewrite Hn, Hskip, app_nil_r. reflexivity.
Qed.

(** C1 (as the code has it).  On a publishing tick whose proxy view matched
    no interface, the published [proxied] keeps the volume and speed it
    held before the tick (zero if they were zero before it), and its
    [activeConnections] is the count of the
    proxy view: the number of connections on the configured port when both
    provider promises of the view resolved, and 0 when one rejected. *)
Theorem unmatched_view_keeps_proxied_metrics (s : TrafficLens) (p : Publish) :
  pr_stats (checkProxyConnections s (tick_netConnections inp)
                                  (tick_proxyNetworkStats inp)) = None ->
  In p (snd (intervalCallback inp s)) ->
  proxy_metrics (proxied (payload p)) = proxy_metrics (proxied (totalStats s)) /\
  (proxy_metrics (proxied (totalStats s)) = zeroMetrics ->
   proxy_metrics (proxied (payload p)) = zeroMetrics) /\
  activeConnections (proxied (payload p))
  = pr_activeConnections (checkProxyConnections s (tick_netConnections inp)
                                                (tick_proxyNetworkStats inp)) /\
  (forall conns stats,
     tick_netConnections inp = Resolved conns ->
     tick_proxyNetworkStats inp = Resolved stats ->
     activeConnections (proxied (payload p))
     = Z.of_nat (List.length (filter (onProxyPort (config s)) conns))) /\
  (tick_netConnections inp = Rejected \/ tick_proxyNetworkStats inp = Rejected ->
   activeConnections (proxied (payload p)) = 0).
Proof.
  intros Hview Hin.
  destruct (published_payload s p Hin) as (cur & last & _ & _ & _ & Hp & _).
  rewrite Hp. unfold updateTotals. rewrite Hview. simpl.
  repeat split.
  - auto.
  - intros conns stats Hc Hs. now rewrite Hc, Hs.
  - intros [Hc | Hs].
    + now rewrite Hc.
    + rewrite Hs. now destruct (tick_netConnections inp).
Qed.

(** C2 (as the code has it).  In every published statistics object each
    field of [direct] is the field of the current capture less the field of
    this tick's proxy view, unclamped: when the view matched an interface
    that is the field of [proxied], when it matched none the subtrahend is
    zero and [direct] is the capture itself. *)
Theorem direct_is_capture_minus_view (s : TrafficLens) (p : Publish)
    (cur : NetworkSnapshot) :
  getCurrentStats (tick_networkStats inp) (tick_captureTime inp) = Some cur ->
  In p (snd (intervalCallback inp s)) ->
  (forall view,
     pr_stats (checkProxyConnections s (tick_netConnections inp)
                                     (tick_proxyNetworkStats inp)) = Some view ->
     proxy_metrics (proxied (payload p)) = view /\
     upload (direct (payload p))
     = upload (snapshot_metrics cur) - upload (proxy_metrics (proxied (payload p))) /\
     download (direct (payload p))
     = download (snapshot_metrics cur) - download (proxy_metrics (proxied (payload p))) /\
     uploadSpeed (direct (payload p))
     = uploadSpeed (snapshot_metrics cur)
       - uploadSpeed (proxy_metrics (proxied (payload p))) /\
     downloadSpeed (direct (payload p))
     = downloadSpeed (snapshot_metrics cur)
       - downloadSpeed (proxy_metrics (proxied (payload p)))) /\
  (pr_stats (checkProxyConnections s (tick_netConnections inp)
                                   (tick_proxyNetworkStats inp)) = None ->
   direct (payload p) = snapshot_metrics cur).
Proof.
  intros Hcur Hin.
  destruct (published_payload s p Hin) as (cur' & last & Hcur' & _ & _ & Hp & _).
  rewrite Hcur in Hcur'. injection Hcur' as <-.
  rewrite Hp. unfold updateTotals. split.
  - intros view ->. cbv zeta. cbn [option_map]. rewrite !js_or_zero.
    simpl. repeat split.
  - intros ->. simpl. rewrite !Z.sub_0_r. now destruct (snapshot_metrics cur).
Qed.

End Tick.

(** C6, at a tick whose interface statistics promise rejects. *)
Lemma absent_capture_skips_tick_witness :
  getCurrentStats Rejected 5000 = None /\
  intervalCallback (Fixtures.failedTick 5000) Fixtures.monitor
  = (Fixtures.monitor, []).
Proof.
  destruct (absent_capture_skips_tick (Fixtures.failedTick 5000)
              (newWorld Fixtures.monitor)) as (Hnone & Hskip & _).
  - left. reflexivity.
  - split; [exact Hnone | exact Hskip].
Defined.

(** The same with a baseline held and an interface list in which nothing is
    up: the world after the tick is the world before it, one tick fewer in
    flight. *)
Example absent_capture_keeps_baseline :
  exists w, run (newWorld Fixtures.monitor) Fixtures.warmUp = Some w /\
    lastStats (instance w) <> None /\
    step w (EvResume (mkTickInput (Resolved [mkNetworkStatsData "eth0" "down" 1000 2000 100 200])
                                  15000 Rejected Rejected 15000 []))
    = Some (mkWorld (instance w) (nextTimer w) 0 (published w)).
Proof.
  eexists. split; [reflexivity|]. split; [discriminate|]. reflexivity.
Qed.

(** C1 (as stated) fails: after a tick that matched [eth0], a publishing
    tick whose proxy view matches no interface publishes [proxied.upload]
    2000, not 0 (with the connection count 2 of this tick). *)
Lemma unmatched_view_publishes_stale_metrics :
  exists w w' p,
    run (newWorld Fixtures.monitor) Fixtures.warmUp = Some w /\
    pr_stats (checkProxyConnections (instance w)
                (tick_netConnections (Fixtures.unmatchedTick 15000))
                (tick_proxyNetworkStats (Fixtures.unmatchedTick 15000))) = None /\
    step w (EvResume (Fixtures.unmatchedTick 15000)) = Some w' /\
    published w' = (published w ++ [p])%list /\
    activeConnections (proxied (payload p)) = 2 /\
    upload (proxy_metrics (proxied (payload p))) = 2000 /\
    upload (proxy_metrics (proxied (payload p))) <> 0.
Proof.
  do 3 eexists. split; [reflexivity|]. split; [reflexivity|].
  split; [reflexivity|]. split; [reflexivity|]. simpl.
  repeat split. discriminate.
Qed.

(** C1 (as the code has it), at that tick. *)
Lemma unmatched_view_keeps_proxied_metrics_witness :
  exists p,
    In p (snd (intervalCallback (Fixtures.unmatchedTick 15000) Fixtures.warmMonitor)) /\
    proxy_metrics (proxied (payload p)) = mkMetrics 2000 1000 200 100 /\
    activeConnections (proxied (payload p)) = 2.
Proof.
  exists (mkPublish 0%nat
            (mkTrafficStats (mkProxyMetrics (mkMetrics 2000 1000 200 100) 2)
                            (mkMetrics 2000 1000 200 100) 15000)).
  assert (Hin : In (mkPublish 0%nat
                      (mkTrafficStats (mkProxyMetrics (mkMetrics 2000 1000 200 100) 2)
                                      (mkMetrics 2000 1000 200 100) 15000))
                   (snd (intervalCallback (Fixtures.unmatchedTick 15000)
                                          Fixtures.warmMonitor))).
  { left. reflexivity. }
  split; [exact Hin|].
  destruct (unmatched_view_keeps_proxied_metrics (Fixtures.unmatchedTick 15000)
              Fixtures.warmMonitor _ eq_refl Hin) as (Hkeep & _ & Hcount & _).
  split; [exact Hkeep | exact Hcount].
Defined.

(** C2 (as stated) fails at the same tick: the capture has [upload] 2000
    and the published [proxied.upload] is 2000, yet [direct.upload] is 2000,
    not their difference 0. *)
Lemma unmatched_view_breaks_direct_equation :
  exists w w' p cur,
    run (newWorld Fixtures.monitor) Fixtures.warmUp = Some w /\
    getCurrentStats (tick_networkStats (Fixtures.unmatchedTick 15000))
                    (tick_captureTime (Fixtures.unmatchedTick 15000)) = Some cur /\
    step w (EvResume (Fixtures.unmatchedTick 15000)) = Some w' /\
    published w' = (published w ++ [p])%list /\
    upload (snapshot_metrics cur) = 2000 /\
    upload (proxy_metrics (proxied (payload p))) = 2000 /\
    upload (direct (payload p)) = 2000 /\
    upload (direct (payload p))
    <> upload (snapshot_metrics cur) - upload (proxy_metrics (proxied (payload p))).
Proof.
  do 4 eexists. split; [reflexivity|]. split; [reflexivity|].
  split; [reflexivity|]. split; [reflexivity|]. simpl.
  repeat split. discriminate.
Qed.

(** C2 (as the code has it), at the second tick of the unit test: the proxy
    view is the whole of [eth0], and [direct] is zero in every field. *)
Lemma direct_is_capture_minus_view_witness :
  exists p,
    In p (snd (intervalCallback (Fixtures.matchedTick 10000) Fixtures.seededMonitor)) /\
    proxy_metrics (proxied (payload p)) = mkMetrics 2000 1000 200 100 /\
    upload (direct (payload p)) = 2000 - upload (proxy_metrics (proxied (payload p))) /\
    direct (payload p) = zeroMetrics.
Proof.
  exists (mkPublish 0%nat
            (mkTrafficStats (mkProxyMetrics (mkMetrics 2000 1000 200 100) 2)
                            zeroMetrics 10000)).
  assert (Hin : In (mkPublish 0%nat
                      (mkTrafficStats (mkProxyMetrics (mkMetrics 2000 1000 200 100) 2)
                                      zeroMetrics 10000))
                   (snd (intervalCallback (Fixtures.matchedTick 10000)
                                          Fixtures.seededMonitor))).
  { left. reflexivity. }
  split; [exact Hin|].
  destruct (direct_is_capture_minus_view (Fixtures.matchedTick 10000)
              Fixtures.seededMonitor _
              (mkSnapshot (mkMetrics 2000 1000 200 100) 10000) eq_refl Hin)
    as (Hmatched & _).
  destruct (Hmatched (mkMetrics 2000 1000 200 100) eq_refl) as (Hview & Hup & _).
  split; [exact Hview|]. split; [exact Hup | reflexivity].
Defined.

(** No clamping: with the proxy connections bound to an interface whose
    counters exceed those of the main interface, [direct] is negative. *)
Example direct_not_clamped :
  snd (intervalCallback (Fixtures.tunnelTick 10000) Fixtures.seededMonitor)
  = [ mkPublish 0%nat
        (mkTrafficStats (mkProxyMetrics (mkMetrics 6000 5000 600 500) 2)
                        (mkMetrics (-4000) (-4000) (-400) (-400)) 10000) ].
Proof. reflexivity. Qed.

(** ** Traces on the event loop *)

Section Traces.

(** A subscriber that does not call [start()] leaves a stopped instance
    stopped. *)
Lemma perform_stays_stopped (c : Call) (s : TrafficLens) :
  isCallStart c = false -> intervalId s = None -> intervalId (perform c s) = None.
Proof.
  destruct c as [h| |cb|cb]; simpl; intros Hc Hs; auto; [discriminate|].
  unfold stop. now rewrite Hs.
Qed.

Lemma react_stays_stopped (r : Reaction) (s : TrafficLens) :
  existsb isCallStart (calls r) = false ->
  intervalId s = None -> intervalId (react r s) = None.
Proof.
  unfold react. generalize (calls r) as cs. intros cs. revert s.
  induction cs as [|c cs IH]; intros s; simpl; [auto|].
  intros Hc Hs. apply orb_false_elim in Hc. destruct Hc as [Hc Hcs].
  apply IH; [exact Hcs|]. now apply perform_stays_stopped.
Qed.

Lemma fanOut_stays_stopped (cbs : list CallbackId) : forall reactions s,
  existsb (fun r => existsb isCallStart (calls r)) reactions = false ->
  intervalId s = None ->
  intervalId (fst (fst (fanOut cbs reactions s))) = None.
Proof.
  induction cbs as [|cb cbs IH]; intros reactions s Hr Hs; simpl; [exact Hs|].
  assert (Hhd : existsb isCallStart (calls (hd quiet reactions)) = false
                /\ existsb (fun r => existsb isCallStart (calls r)) (tl reactions)
                   = false).
  { destruct reactions as [|r rs]; simpl in *; [auto|].
    now apply orb_false_elim in Hr. }
  destruct Hhd as [Hhd Htl].
  pose proof (react_stays_stopped _ s Hhd Hs) as Hs1.
  destruct (throws (hd quiet reactions)); simpl; [exact Hs1|].
  specialize (IH (tl reactions) _ Htl Hs1).
  destruct (fanOut cbs (tl reactions) (react (hd quiet reactions) s))
    as [[s2 out] threw]. exact IH.
Qed.

Lemma intervalCallback_stays_stopped (inp : TickInput) (s : TrafficLens) :
  callsStart (EvResume inp) = false ->
  intervalId s = None ->
  intervalId (fst (intervalCallback inp s)) = None.
Proof.
  simpl. intros Hr Hs. unfold intervalCallback.
  destruct (getCurrentStats _ _) as [cur|]; [|exact Hs].
  destruct (lastStats s); [|exact Hs].
  match goal with
  | |- context [fanOut ?cbs ?rs ?s0] =>
      pose proof (fanOut_stays_stopped cbs rs s0 Hr Hs) as Hf;
      destruct (fanOut cbs rs s0) as [[s' out] threw]
  end.
  simpl in *. now destruct threw.
Qed.

(** One event in a stopped world in which [start()] is not called: the world
    stays stopped, the event is not a timer firing, and only the resumption
    of a tick already in flight can add to the publish log. *)
Lemma step_while_stopped (w w' : World) (e : Event) :
  intervalId (instance w) = None ->
  callsStart e = false ->
  step w e = Some w' ->
  intervalId (instance w') = None /\
  isTimer e = false /\
  (if isResume e then inFlight w = S (inFlight w')
   else inFlight w = inFlight w' /\ published w' = published w).
Proof.
  intros Hstopped Hns Hstep.
  destruct e as [| |cb|cb| |inp].
  - discriminate.
  - simpl in *. injection Hstep as <-. simpl. unfold stop. rewrite Hstopped. auto.
  - simpl in *. injection Hstep as <-. simpl. auto.
  - simpl in *. injection Hstep as <-. simpl. auto.
  - simpl in *. rewrite Hstopped in Hstep. discriminate.
  - pose proof (intervalCallback_stays_stopped inp (instance w) Hns Hstopped) as Hid.
    simpl in Hstep. destruct (inFlight w) as [|n]; [discriminate|].
    destruct (intervalCallback inp (instance w)) as [s' out].
    injection Hstep as <-. simpl in *. auto.
Qed.

Lemma run_while_stopped (evs : list Event) : forall w w',
  intervalId (instance w) = None ->
  forallb (fun e => negb (callsStart e)) evs = true ->
  run w evs = Some w' ->
  intervalId (instance w') = None /\
  filter isTimer evs = [] /\
  (List.length (filter isResume evs) + inFlight w' = inFlight w)%nat /\
  (filter isResume evs = [] -> published w' = published w) /\
  (inFlight w = O -> published w' = published w).
Proof.
  induction evs as [|e evs IH]; intros w w' Hstopped Hns Hrun; simpl in *.
  - injection Hrun as <-. auto.
  - apply andb_prop in Hns. destruct Hns as [Hne Hns].
    apply negb_true_iff in Hne.
    destruct (step w e) as [w1|] eqn:Hstep; [|discriminate].
    destruct (step_while_stopped w w1 e Hstopped Hne Hstep) as (Hs1 & Ht & Hres).
    destruct (IH w1 w' Hs1 Hns Hrun) as (Hs' & Htimers & Hcount & Hquiet & Hpub).
    rewrite Ht. split; [exact Hs'|]. split; [exact Htimers|].
    destruct (isResume e); simpl.
    + split; [lia|]. split; [discriminate|]. intros Hz. lia.
    + destruct Hres as [Hfl Hp]. split; [lia|]. split.
      * intros Hnil. rewrite <- Hp. now apply Hquiet.
      * intros Hz. rewrite <- Hp. apply Hpub. lia.
Qed.

(** C4 (as the code has it).  Take an event that leaves the instance
    stopped: a call of [stop()], or a tick during whose fan-out a subscriber
    called [stop()] (the rest of that fan-out still runs; it belongs to the
    event).  From then on, until [start()] is called again by anyone, the
    timer never fires, so no new tick begins; the publish log grows only when
    a tick resumes that was awaiting the provider at that moment, at most as
    many ticks resume as were awaiting then, and when there was none the
    publish log never grows.  A call of [stop()] itself publishes nothing. *)
Theorem after_stop_only_pending_ticks_run (w w0 w' : World) (e : Event)
    (evs : list Event) :
  step w e = Some w0 ->
  (e = EvStop \/ (isResume e = true /\ intervalId (instance w0) = None)) ->
  forallb (fun e' => negb (callsStart e')) evs = true ->
  run w0 evs = Some w' ->
  intervalId (instance w') = None /\
  filter isTimer evs = [] /\
  (List.length (filter isResume evs) + inFlight w' = inFlight w0)%nat /\
  (filter isResume evs = [] -> published w' = published w0) /\
  (inFlight w0 = O -> published w' = published w0) /\
  (e = EvStop -> inFlight w0 = inFlight w /\ published w0 = published w).
Proof.
  intros Hstep Hstop Hns Hrun.
  assert (Hstopped : intervalId (instance w0) = None).
  { destruct Hstop as [-> | [_ H]]; [|exact H].
    simpl in Hstep. injection Hstep as <-. simpl. unfold stop.
    destruct (intervalId (instance w)) eqn:Hid; simpl; [reflexivity|exact Hid]. }
  destruct (run_while_stopped evs w0 w' Hstopped Hns Hrun)
    as (H1 & H2 & H3 & H4 & H5).
  repeat (split; [assumption|]).
  intros ->. simpl in Hstep. injection Hstep as <-. simpl. auto.
Qed.

(** One event that is not a successful tick, in a world that holds no
    baseline: still no baseline, nothing published, statistics untouched. *)
Lemma step_without_baseline (w w' : World) (e : Event) :
  lastStats (instance w) = None ->
  isSuccessful e = false ->
  step w e = Some w' ->
  lastStats (instance w') = None /\
  published w' = published w /\
  totalStats (instance w') = totalStats (instance w).
Proof.
  intros Hnone Hfail Hstep.
  destruct e as [| |cb|cb| |inp]; simpl in *.
  - unfold start in Hstep. destruct (intervalId (instance w));
      injection Hstep as <-; simpl; auto.
  - injection Hstep as <-. simpl. unfold stop.
    destruct (intervalId (instance w)); simpl; auto.
  - injection Hstep as <-. simpl. auto.
  - injection Hstep as <-. simpl. auto.
  - destruct (intervalId (instance w)); [|discriminate].
    injection Hstep as <-. simpl. auto.
  - destruct (inFlight w) as [|n]; [discriminate|].
    unfold intervalCallback in Hstep.
    destruct (getCurrentStats _ _); [discriminate|].
    injection Hstep as <-. simpl. rewrite app_nil_r. auto.
Qed.

Lemma run_without_baseline (evs : list Event) : forall w w',
  lastStats (instance w) = None ->
  forallb (fun e => negb (isSuccessful e)) evs = true ->
  run w evs = Some w' ->
  lastStats (instance w') = None /\
  published w' = published w /\
  totalStats (instance w') = totalStats (instance w).
Proof.
  induction evs as [|e evs IH]; intros w w' Hnone Hfail Hrun; simpl in *.
  - injection Hrun as <-. auto.
  - apply andb_prop in Hfail. destruct Hfail as [He Hfail].
    apply negb_true_iff in He.
    destruct (step w e) as [w1|] eqn:Hstep; [|discriminate].
    destruct (step_without_baseline w w1 e Hnone He Hstep) as (Hn1 & Hp1 & Ht1).
    destruct (IH w1 w' Hn1 Hfail Hrun) as (Hn' & Hp' & Ht').
    rewrite Hp', Hp1, Ht', Ht1. auto.
Qed.

(** C5 (as the code has it).  The first successful tick in the life of an
    instance (the seed tick of its first [start()]) calls no subscriber and
    leaves the live statistics as constructed: it only stores the capture
    as the baseline. *)
Theorem first_successful_tick_only_seeds (c : Config) (now : Z) (s : TrafficLens)
    (evs : list Event) (w w' : World) (inp : TickInput) (cur : NetworkSnapshot) :
  constructor c now = Ok s ->
  run (newWorld s) evs = Some w ->
  forallb (fun e => negb (isSuccessful e)) evs = true ->
  getCurrentStats (tick_networkStats inp) (tick_captureTime inp) = Some cur ->
  step w (EvResume inp) = Some w' ->
  published w' = [] /\
  totalStats (instance w') = initialStats now /\
  lastStats (instance w') = Some cur /\
  callbacks (instance w') = callbacks (instance w) /\
  intervalId (instance w') = intervalId (instance w).
Proof.
  intros Hnew Hrun Hfail Hcur Hstep.
  assert (Hs : lastStats s = None /\ totalStats s = initialStats now).
  { unfold constructor in Hnew.
    destruct (intervalTooShort c); [discriminate|].
    injection Hnew as <-. auto. }
  destruct Hs as [Hnone Hinit].
  destruct (run_without_baseline evs (newWorld s) w Hnone Hfail Hrun)
    as (Hn & Hp & Ht). simpl in Hp, Ht.
  simpl in Hstep. destruct (inFlight w) as [|n]; [discriminate|].
  rewrite (seed_tick inp (instance w) cur Hn Hcur) in Hstep.
  injection Hstep as <-. simpl.
  rewrite Hp, Ht, Hinit. auto.
Qed.

(** The proxy view depends on the instance through its configuration
    only, and no event changes the configuration. *)
Lemma checkProxyConnections_config (s1 s2 : TrafficLens) conns stats :
  config s1 = config s2 ->
  checkProxyConnections s1 conns stats = checkProxyConnections s2 conns stats.
Proof.
  intros Hc. unfold checkProxyConnections. now rewrite Hc.
Qed.

Lemma step_config (w w' : World) (e : Event) :
  step w e = Some w' -> config (instance w') = config (instance w).
Proof.
  destruct e as [| |cb|cb| |inp]; simpl; intros Hstep.
  - unfold start in Hstep. destruct (intervalId (instance w));
      injection Hstep as <-; reflexivity.
  - injection Hstep as <-. simpl. unfold stop.
    destruct (intervalId (instance w)); reflexivity.
  - injection Hstep as <-. reflexivity.
  - injection Hstep as <-. reflexivity.
  - destruct (intervalId (instance w)); [|discriminate].
    injection Hstep as <-. reflexivity.
  - destruct (inFlight w); [discriminate|].
    destruct (intervalCallback_cases inp (instance w))
      as [Hi | [[cur Hi] | (cur & last & _ & _ & _ & Hc & _)]].
    + rewrite Hi in Hstep. injection Hstep as <-. reflexivity.
    + rewrite Hi in Hstep. injection Hstep as <-. reflexivity.
    + destruct (intervalCallback inp (instance w)) as [s' out].
      injection Hstep as <-. exact Hc.
Qed.

(** Until a proxy view first matches an interface, the volume and speed of
    [proxied] are the zeros of construction, in the instance and in every
    published object. *)
Lemma step_without_match (s0 : TrafficLens) (w w' : World) (e : Event) :
  proxiedStillZero s0 w ->
  isMatched s0 e = false ->
  step w e = Some w' ->
  proxiedStillZero s0 w'.
Proof.
  intros (Hc & Hz & Hpub) Hm Hstep.
  pose proof (step_config w w' e Hstep) as Hc'.
  split; [congruence|].
  destruct e as [| |cb|cb| |inp]; simpl in Hstep.
  - unfold start in Hstep. destruct (intervalId (instance w));
      injection Hstep as <-; auto.
  - injection Hstep as <-. simpl. unfold stop.
    destruct (intervalId (instance w)); auto.
  - injection Hstep as <-. auto.
  - injection Hstep as <-. auto.
  - destruct (intervalId (instance w)); [|discriminate].
    injection Hstep as <-. auto.
  - destruct (inFlight w); [discriminate|].
    simpl in Hm.
    rewrite <- (checkProxyConnections_config (instance w) s0 _ _ Hc) in Hm.
    assert (Hnew : forall cur,
               proxy_metrics
                 (proxied (updateTotals (snapshot_metrics cur)
                    (checkProxyConnections (instance w) (tick_netConnections inp)
                                           (tick_proxyNetworkStats inp))
                    (tick_publishTime inp) (totalStats (instance w))))
               = zeroMetrics).
    { intros cur. unfold updateTotals.
      destruct (pr_stats _); [discriminate|]. exact Hz. }
    pose proof (published_payload inp (instance w)) as Hpay.
    destruct (intervalCallback_cases inp (instance w))
      as [Hi | [[cur Hi] | (cur & last & _ & _ & Ht & _ & _)]].
    + rewrite Hi in Hstep. injection Hstep as <-. simpl. rewrite app_nil_r. auto.
    + rewrite Hi in Hstep. injection Hstep as <-. simpl. rewrite app_nil_r. auto.
    + destruct (intervalCallback inp (instance w)) as [s' out].
      injection Hstep as <-. cbn [fst snd] in Ht, Hpay.
      cbn [instance published]. split.
      * rewrite Ht. apply Hnew.
      * intros p Hin. apply in_app_or in Hin. destruct Hin as [Hin|Hin]; [auto|].
        destruct (Hpay p Hin) as (cur' & _ & _ & _ & _ & Hp & _).
        rewrite Hp. apply Hnew.
Qed.

Lemma proxied_zero_until_first_match (c : Config) (now : Z) (s0 : TrafficLens)
    (evs : list Event) (w : World) :
  constructor c now = Ok s0 ->
  forallb (fun e => negb (isMatched s0 e)) evs = true ->
  run (newWorld s0) evs = Some w ->
  proxiedStillZero s0 w.
Proof.
  intros Hnew Hm Hrun.
  assert (Hinit : proxiedStillZero s0 (newWorld s0)).
  { unfold constructor in Hnew. destruct (intervalTooShort c); [discriminate|].
    injection Hnew as <-. repeat split. intros p []. }
  clear Hnew. revert Hm Hrun Hinit. generalize (newWorld s0) as w0.
  induction evs as [|e evs IH]; intros w0 Hm Hrun Hinit; simpl in *.
  - injection Hrun as <-. exact Hinit.
  - apply andb_prop in Hm. destruct Hm as [He Hm]. apply negb_true_iff in He.
    destruct (step w0 e) as [w1|] eqn:Hstep; [|discriminate].
    apply (IH w1 Hm Hrun). exact (step_without_match s0 w0 w1 e Hinit He Hstep).
Qed.

End Traces.

(** C4 (as stated) fails: [stop()] is called while the second tick awaits
    the provider; nothing has been published so far, and when the tick
    resumes it calls the subscriber. *)
Lemma pending_tick_publishes_after_stop :
  exists w w',
    run (newWorld Fixtures.monitor) Fixtures.stopWhileAwaiting = Some w /\
    intervalId (instance w) = None /\
    published w = [] /\
    step w (EvResume (Fixtures.matchedTick 10000)) = Some w' /\
    intervalId (instance w') = None /\
    published w'
    = [ mkPublish 0%nat
          (mkTrafficStats (mkProxyMetrics (mkMetrics 2000 1000 200 100) 2)
                          zeroMetrics 10000) ] /\
    published w' <> published w.
Proof.
  do 2 eexists. split; [reflexivity|]. simpl.
  repeat split. discriminate.
Qed.

(** C4 (as the code has it), at a tick whose first subscriber calls
    [stop()]: the second subscriber is still called in that fan-out, and
    nothing is published afterwards. *)
Lemma after_stop_only_pending_ticks_run_witness :
  exists w0 w',
    step (mkWorld Fixtures.seededPair 2%positive 1 [])
         (EvResume (Fixtures.stoppingTick 10000)) = Some w0 /\
    map subscriber (published w0) = [0%nat; 1%nat] /\
    run w0 [EvSubscribe 2%nat; EvStop; EvDispose 0%nat] = Some w' /\
    intervalId (instance w') = None /\
    published w' = published w0.
Proof.
  do 2 eexists. split; [reflexivity|]. split; [reflexivity|].
  split; [reflexivity|].
  destruct (after_stop_only_pending_ticks_run
              (mkWorld Fixtures.seededPair 2%positive 1 [])
              _ _ (EvResume (Fixtures.stoppingTick 10000))
              [EvSubscribe 2%nat; EvStop; EvDispose 0%nat]
              eq_refl (or_intror (conj eq_refl eq_refl)) eq_refl eq_refl)
    as (Hid & _ & _ & _ & Hpub & _).
  split; [exact Hid | exact (Hpub eq_refl)].
Defined.

(** C5 (as stated) fails: after a seed tick, [stop()] and a second
    [start()], the first successful tick after that second start finds the
    baseline of the first run and calls the subscriber. *)
Lemma first_tick_after_restart_publishes :
  exists w w',
    run (newWorld Fixtures.monitor) Fixtures.restart = Some w /\
    published w = [] /\
    intervalId (instance w) = Some 2%positive /\
    step w (EvResume (Fixtures.matchedTick 10000)) = Some w' /\
    published w'
    = [ mkPublish 0%nat
          (mkTrafficStats (mkProxyMetrics (mkMetrics 2000 1000 200 100) 2)
                          zeroMetrics 10000) ] /\
    totalStats (instance w') <> totalStats (instance w).
Proof.
  do 2 eexists. split; [reflexivity|]. simpl.
  repeat split. discriminate.
Qed.

(** C5 (as the code has it): a failed tick, then the first successful one. *)
Lemma first_successful_tick_only_seeds_witness :
  exists w w',
    run (newWorld Fixtures.monitor) Fixtures.coldStart = Some w /\
    step w (EvResume (Fixtures.matchedTick 10000)) = Some w' /\
    published w' = [] /\
    totalStats (instance w') = initialStats 0 /\
    lastStats (instance w') = Some (mkSnapshot (mkMetrics 2000 1000 200 100) 10000).
Proof.
  do 2 eexists. split; [reflexivity|].
  assert (Hstep : step (mkWorld (mkTrafficLens None (initialStats 0) (Some 1%positive)
                                   [0%nat] (mkConfig 1080 (Some 5000)))
                                2%positive 1 [])
                       (EvResume (Fixtures.matchedTick 10000))
                  = Some (mkWorld
                            (mkTrafficLens
                               (Some (mkSnapshot (mkMetrics 2000 1000 200 100) 10000))
                               (initialStats 0) (Some 1%positive)
                               [0%nat] (mkConfig 1080 (Some 5000)))
                            2%positive 0 [])).
  { reflexivity. }
  split; [exact Hstep|].
  destruct (first_successful_tick_only_seeds (mkConfig 1080 None) 0
              Fixtures.monitor Fixtures.coldStart _ _
              (Fixtures.matchedTick 10000)
              (mkSnapshot (mkMetrics 2000 1000 200 100) 10000)
              eq_refl eq_refl eq_refl eq_refl Hstep) as (Hp & Ht & Hl & _).
  split; [exact Hp|]. split; [exact Ht | exact Hl].
Defined.

Example warmUp_reaches_warmMonitor :
  run (newWorld Fixtures.monitor) Fixtures.warmUp
  = Some (mkWorld Fixtures.warmMonitor 2%positive 1
            [ mkPublish 0%nat (totalStats Fixtures.warmMonitor) ]).
Proof. reflexivity. Qed.

Example seed_reaches_seededMonitor :
  run (newWorld Fixtures.monitor)
      [EvSubscribe 0%nat; EvStart; EvTimer; EvResume (Fixtures.matchedTick 5000)]
  = Some (mkWorld Fixtures.seededMonitor 2%positive 0 []).
Proof. reflexivity. Qed.

Example toString_1080 : toString 1080 = "1080".
Proof. reflexivity. Qed.

Example includes_eth0 : includes "fe80::1%eth0" "eth0" = true.
Proof. reflexivity. Qed.

Example toFixed_half_up : Format.toFixed 2 (1005 # 1000) = "1.01".
Proof. vm_compute. reflexivity. Qed.

Example toFixed_negative : Format.toFixed 2 (- (1 # 1000)) = "-0.00".
Proof. vm_compute. reflexivity. Qed.

Example formatBytes_1536 : Format.formatBytes (inject_Z 1536) = "1.50 KB".
Proof. vm_compute. reflexivity. Qed.

Example formatBytes_tera : Format.formatBytes (inject_Z (1024 ^ 4)) = "1024.00 GB".
Proof. vm_compute. reflexivity. Qed.

Example formatBytes_small : Format.formatBytes (inject_Z 5) = "5.00 B".
Proof. vm_compute. reflexivity. Qed.

(** * Further properties of the class *)

(** ** Strings *)

Section Strings.

Lemma includes_unfold (s sub : string) :
  includes s sub
  = (String.prefix sub s ||
     match s with
     | EmptyString => false
     | String _ rest => includes rest sub
     end)%bool.
Proof. destruct s; reflexivity. Qed.

Lemma prefix_split (a : string) : forall s,
  String.prefix a s = true -> exists post, s = a ++ post.
Proof.
  induction a as [|c a IH]; intros s H; simpl in *.
  - exists s. reflexivity.
  - destruct s as [|d s]; simpl in H; [discriminate|].
    destruct (ascii_dec c d) as [->|]; [|discriminate].
    destruct (IH s H) as [post ->]. exists post. reflexivity.
Qed.

Lemma prefix_append (a post : string) : String.prefix a (a ++ post) = true.
Proof.
  induction a as [|c a IH]; simpl; [now destruct post|].
  destruct (ascii_dec c c); [exact IH|congruence].
Qed.

(** [includes] is substring occurrence. *)
Lemma includes_occurs (s sub : string) :
  includes s sub = true <-> exists pre post, s = pre ++ sub ++ post.
Proof.
  split.
  - induction s as [|c s IH]; rewrite includes_unfold; intros H;
      apply orb_prop in H; destruct H as [H|H].
    + apply prefix_split in H. destruct H as [post ->]. now exists "", post.
    + discriminate.
    + apply prefix_split in H. destruct H as [post ->]. now exists "", post.
    + destruct (IH H) as (pre & post & ->). now exists (String c pre), post.
  - intros (pre & post & ->). induction pre as [|c pre IH].
    + rewrite includes_unfold. simpl. now rewrite prefix_append.
    + rewrite includes_unfold. simpl. rewrite IH. apply orb_true_r.
Qed.

(** The decimal rendering of a port tells the port. *)
Lemma toString_injective (a b : Z) : toString a = toString b -> a = b.
Proof.
  unfold toString. intros H.
  assert (Hnz : forall z, Z.to_int z <> Decimal.Pos Decimal.Nil
                          /\ Z.to_int z <> Decimal.Neg Decimal.Nil).
  { intros [|p|p]; cbn; split; try discriminate.
    all: intros Hp; injection Hp as Hp; revert Hp;
      apply DecimalPos.Unsigned.to_uint_nonnil. }
  apply DecimalZ.to_int_inj.
  assert (Hs : Some (Z.to_int a) = Some (Z.to_int b)).
  { rewrite <- (NilZero.isi (Z.to_int a)), <- (NilZero.isi (Z.to_int b));
      try apply Hnz. now rewrite H. }
  now injection Hs.
Qed.

End Strings.

(** ** Sampler *)

Section SamplerFacts.

Lemma find_first {A} (f : A -> bool) (before after : list A) (x : A) :
  (forall y, In y before -> f y = false) -> f x = true ->
  find f (before ++ x :: after)%list = Some x.
Proof.
  intros Hb Hx. induction before as [|b before IH]; simpl.
  - now rewrite Hx.
  - rewrite (Hb b (or_introl eq_refl)). apply IH.
    intros y Hy. apply Hb. now right.
Qed.

(** X1.  [getCurrentStats] takes the first interface of the provider's list
    that is up with a positive received-byte counter, whatever follows it:
    the capture carries that interface's four counters unchanged and the
    instant of the capture. *)
Theorem getCurrentStats_takes_first_main_interface
    (before after : list NetworkStatsData) (st : NetworkStatsData) (now : Z) :
  (forall x, In x before -> isMainInterface x = false) ->
  isMainInterface st = true ->
  getCurrentStats (Resolved (before ++ st :: after)%list) now
  = Some {| snapshot_metrics := countersOf st; snapshot_timestamp := now |}.
Proof.
  intros Hb Hst. unfold getCurrentStats.
  rewrite (find_first _ _ _ _ Hb Hst). unfold countersOf.
  now rewrite !js_or_zero.
Qed.

(** X2.  Whenever [getCurrentStats] returns a capture, the provider promise
    had resolved, the capture is stamped with the instant given, its counters
    are those of a listed interface whose state is "up", and its [download]
    is strictly positive. *)
Theorem getCurrentStats_capture_is_live
    (r : Provided (list NetworkStatsData)) (now : Z) (snap : NetworkSnapshot) :
  getCurrentStats r now = Some snap ->
  snapshot_timestamp snap = now /\
  0 < download (snapshot_metrics snap) /\
  exists stats st,
    r = Resolved stats /\ In st stats /\
    operstate st = "up" /\
    snapshot_metrics snap = countersOf st.
Proof.
  unfold getCurrentStats. destruct r as [stats|]; [|discriminate].
  destruct (find isMainInterface stats) as [st|] eqn:Hfind; [|discriminate].
  rewrite !js_or_zero. intros [= <-].
  apply find_some in Hfind. destruct Hfind as [Hin Hmain].
  unfold isMainInterface in Hmain. apply andb_prop in Hmain.
  destruct Hmain as [Hup Hrx]. apply String.eqb_eq in Hup. apply Z.ltb_lt in Hrx.
  simpl. split; [reflexivity|]. split; [exact Hrx|].
  exists stats, st. auto.
Qed.

Lemma proxy_view_count_nonneg (s : TrafficLens)
    (nc : Provided (list NetworkConnectionsData))
    (ns : Provided (list NetworkStatsData)) :
  0 <= pr_activeConnections (checkProxyConnections s nc ns).
Proof.
  unfold checkProxyConnections.
  destruct nc; [destruct ns|]; simpl; lia.
Qed.

(** X3.  The connection count of a proxy view is never negative and never
    more than the length of the connection table, and a view that carries
    interface statistics counts at least one connection: with no connection
    on the proxy port no interface is ever matched. *)
Theorem proxy_view_count_bounds (s : TrafficLens)
    (nc : Provided (list NetworkConnectionsData))
    (ns : Provided (list NetworkStatsData)) :
  0 <= pr_activeConnections (checkProxyConnections s nc ns) /\
  (forall conns, nc = Resolved conns ->
     pr_activeConnections (checkProxyConnections s nc ns)
     <= Z.of_nat (List.length conns)) /\
  (pr_stats (checkProxyConnections s nc ns) <> None ->
   1 <= pr_activeConnections (checkProxyConnections s nc ns)).
Proof.
  unfold checkProxyConnections.
  destruct nc as [conns|]; [destruct ns as [stats|]|]; simpl.
  - split; [lia|]. split.
    + intros c [= <-]. apply inj_le. apply filter_length_le.
    + destruct (filter (onProxyPort (config s)) conns) as [|c l] eqn:Hf.
      * intros Hne. exfalso. apply Hne.
        rewrite (find_all_false (carriedBy []) stats); [reflexivity|].
        intros; reflexivity.
      * intros _. simpl List.length. lia.
  - split; [lia|]. split; [intros; lia|congruence].
  - split; [lia|]. split; [intros c [=]|congruence].
Qed.

(** X4.  A proxy view carries interface statistics exactly when both
    provider promises resolved and the name of some listed interface occurs
    as a substring of the local address of some connection whose local port
    is the decimal rendering of the configured port; the statistics are then
    the unchanged counters of such an interface. *)
Theorem proxy_view_matches_by_substring (s : TrafficLens)
    (nc : Provided (list NetworkConnectionsData))
    (ns : Provided (list NetworkStatsData)) :
  (forall m, pr_stats (checkProxyConnections s nc ns) = Some m ->
     exists conns stats i conn pre post,
       nc = Resolved conns /\ ns = Resolved stats /\
       In i stats /\ In conn conns /\
       localPort conn = toString (proxyPort (config s)) /\
       localAddress conn = pre ++ iface i ++ post /\
       m = countersOf i) /\
  (forall conns stats i conn pre post,
     nc = Resolved conns -> ns = Resolved stats ->
     In i stats -> In conn conns ->
     localPort conn = toString (proxyPort (config s)) ->
     localAddress conn = pre ++ iface i ++ post ->
     pr_stats (checkProxyConnections s nc ns) <> None).
Proof.
  split.
  - intros m. unfold checkProxyConnections.
    destruct nc as [conns|]; [|discriminate].
    destruct ns as [stats|]; [|discriminate]. simpl.
    destruct (find _ stats) as [i|] eqn:Hfind; [|discriminate].
    intros [= <-]. apply find_some in Hfind. destruct Hfind as [Hi Hc].
    unfold carriedBy in Hc. apply existsb_exists in Hc.
    destruct Hc as (conn & Hconn & Hinc).
    apply filter_In in Hconn. destruct Hconn as [Hconn Hport].
    apply String.eqb_eq in Hport.
    apply includes_occurs in Hinc. destruct Hinc as (pre & post & Haddr).
    exists conns, stats, i, conn, pre, post. auto 10.
  - intros conns stats i conn pre post -> -> Hi Hconn Hport Haddr.
    unfold checkProxyConnections. simpl.
    destruct (find _ stats) as [j|] eqn:Hfind; [discriminate|].
    exfalso. pose proof (find_none _ _ Hfind i Hi) as Hno.
    unfold carriedBy in Hno.
    assert (Hyes : existsb (fun c => includes (localAddress c) (iface i))
                           (filter (onProxyPort (config s)) conns) = true).
    { apply existsb_exists. exists conn. split.
      - apply filter_In. split; [exact Hconn|].
        unfold onProxyPort. now apply String.eqb_eq.
      - apply includes_occurs. now exists pre, post. }
    congruence.
Qed.

(** X5.  A connection is counted for one port only: if it is on the proxy
    port of two configurations, the two ports are the same number. *)
Theorem connection_counts_for_one_port (c1 c2 : Config)
    (conn : NetworkConnectionsData) :
  onProxyPort c1 conn = true ->
  onProxyPort c2 conn = true ->
  proxyPort c1 = proxyPort c2.
Proof.
  unfold onProxyPort. intros H1 H2.
  apply String.eqb_eq in H1. apply String.eqb_eq in H2.
  apply toString_injective. congruence.
Qed.

End SamplerFacts.

(** X1, at the provider list of the unit tests behind an interface that is
    down. *)
Lemma getCurrentStats_takes_first_main_interface_witness :
  getCurrentStats
    (Resolved ([mkNetworkStatsData "lo" "down" 10 10 1 1]
               ++ mkNetworkStatsData "eth0" "up" 1000 2000 100 200
               :: [mkNetworkStatsData "wlan0" "up" 7 7 7 7])%list) 42
  = Some (mkSnapshot (mkMetrics 2000 1000 200 100) 42).
Proof.
  apply (getCurrentStats_takes_first_main_interface
           [mkNetworkStatsData "lo" "down" 10 10 1 1]
           [mkNetworkStatsData "wlan0" "up" 7 7 7 7]
           (mkNetworkStatsData "eth0" "up" 1000 2000 100 200) 42).
  - intros x [<-|[]]. reflexivity.
  - reflexivity.
Defined.

(** X2, at the provider list of the unit tests. *)
Lemma getCurrentStats_capture_is_live_witness :
  exists snap,
    getCurrentStats (Resolved Fixtures.mockNetworkStats) 42 = Some snap /\
    snapshot_timestamp snap = 42 /\
    0 < download (snapshot_metrics snap).
Proof.
  exists (mkSnapshot (mkMetrics 2000 1000 200 100) 42).
  split; [reflexivity|].
  destruct (getCurrentStats_capture_is_live
              (Resolved Fixtures.mockNetworkStats) 42
              (mkSnapshot (mkMetrics 2000 1000 200 100) 42) eq_refl)
    as (Ht & Hd & _).
  split; [exact Ht | exact Hd].
Defined.

(** X5, at a connection on port 1080. *)
Lemma connection_counts_for_one_port_witness :
  proxyPort (mkConfig 1080 None) = proxyPort (mkConfig 1080 (Some 5000)).
Proof.
  apply (connection_counts_for_one_port _ _ (mkNetworkConnectionsData "eth0" "1080"));
    reflexivity.
Defined.

(** ** Aggregator *)

Section AggregatorFacts.

Variable inp : TickInput.

(** The baseline is out of a subscriber's reach: a fan-out goes the same way
    whatever snapshot is held. *)
Lemma perform_set_lastStats (v : option NetworkSnapshot) (c : Call) (s : TrafficLens) :
  perform c (set_lastStats v s) = set_lastStats v (perform c s).
Proof.
  destruct c as [h| |cb|cb]; simpl; try reflexivity.
  - unfold start. simpl. destruct (intervalId s); reflexivity.
  - unfold stop. simpl. destruct (intervalId s); reflexivity.
Qed.

Lemma react_set_lastStats (v : option NetworkSnapshot) (r : Reaction) (s : TrafficLens) :
  react r (set_lastStats v s) = set_lastStats v (react r s).
Proof.
  unfold react. generalize (calls r) as cs. intros cs. revert s.
  induction cs as [|c cs IH]; intros s; simpl; [reflexivity|].
  now rewrite perform_set_lastStats, IH.
Qed.

Lemma fanOut_set_lastStats (v : option NetworkSnapshot) (cbs : list CallbackId) :
  forall reactions s,
    fanOut cbs reactions (set_lastStats v s)
    = (set_lastStats v (fst (fst (fanOut cbs reactions s))),
       snd (fst (fanOut cbs reactions s)),
       snd (fanOut cbs reactions s)).
Proof.
  induction cbs as [|cb cbs IH]; intros reactions s; simpl; [reflexivity|].
  rewrite react_set_lastStats.
  destruct (throws (hd quiet reactions)); simpl; [reflexivity|].
  rewrite IH.
  destruct (fanOut cbs (tl reactions) (react (hd quiet reactions) s))
    as [[s2 out] threw]. reflexivity.
Qed.

(** Who is called in a fan-out: the callbacks it began with, in order, up to
    the first that throws; all of them when none throws. *)
Lemma fanOut_subscribers (cbs : list CallbackId) : forall reactions s,
  (exists k, map subscriber (snd (fst (fanOut cbs reactions s))) = firstn k cbs) /\
  (existsb throws reactions = false ->
   map subscriber (snd (fst (fanOut cbs reactions s))) = cbs /\
   snd (fanOut cbs reactions s) = false).
Proof.
  induction cbs as [|cb cbs IH]; intros reactions s; simpl.
  - split; [now exists 0%nat|auto].
  - assert (Hhd : existsb throws reactions = false ->
                  throws (hd quiet reactions) = false
                  /\ existsb throws (tl reactions) = false).
    { destruct reactions as [|r rs]; simpl; [auto|]. apply orb_false_elim. }
    destruct (throws (hd quiet reactions)) eqn:Hthrow; simpl.
    + split; [now exists 1%nat|]. intros Hno. now destruct (Hhd Hno).
    + destruct (IH (tl reactions) (react (hd quiet reactions) s)) as [[k Hk] Hall].
      destruct (fanOut cbs (tl reactions) (react (hd quiet reactions) s))
        as [[s2 out] threw]. simpl in *. split.
      * exists (S k). simpl. now rewrite Hk.
      * intros Hno. destruct (Hhd Hno) as [_ Htl].
        destruct (Hall Htl) as [Hm Ht]. now rewrite Hm.
Qed.

(** Subscribers that call no method leave the subscriber list and the timer
    handle alone, whether they return or throw. *)
Lemma fanOut_without_calls (cbs : list CallbackId) : forall reactions s,
  forallb (fun r => match calls r with [] => true | _ => false end) reactions = true ->
  callbacks (fst (fst (fanOut cbs reactions s))) = callbacks s /\
  intervalId (fst (fst (fanOut cbs reactions s))) = intervalId s.
Proof.
  induction cbs as [|cb cbs IH]; intros reactions s Hq; simpl; [auto|].
  assert (Hhd : calls (hd quiet reactions) = []
                /\ forallb (fun r => match calls r with [] => true | _ => false end)
                           (tl reactions) = true).
  { destruct reactions as [|r rs]; simpl in *; [auto|].
    apply andb_prop in Hq. destruct Hq as [Hr Hrs].
    split; [|exact Hrs]. now destruct (calls r). }
  destruct Hhd as [Hhd Htl].
  assert (Hreact : react (hd quiet reactions) s = s).
  { unfold react. now rewrite Hhd. }
  rewrite Hreact.
  destruct (throws (hd quiet reactions)); simpl; [auto|].
  specialize (IH (tl reactions) s Htl).
  destruct (fanOut cbs (tl reactions) s) as [[s2 out] threw]. exact IH.
Qed.


(** X7.  The values of the held baseline are never read: two instances that
    differ only in which snapshot they hold publish the same calls and end
    with the same statistics.  Only the presence of a baseline matters. *)
Theorem baseline_values_are_never_read (s : TrafficLens) (a b : NetworkSnapshot) :
  snd (intervalCallback inp (set_lastStats (Some a) s))
  = snd (intervalCallback inp (set_lastStats (Some b) s)) /\
  totalStats (fst (intervalCallback inp (set_lastStats (Some a) s)))
  = totalStats (fst (intervalCallback inp (set_lastStats (Some b) s))).
Proof.
  unfold intervalCallback. cbn [lastStats set_lastStats callbacks totalStats config].
  destruct (getCurrentStats _ _) as [cur|]; [|split; reflexivity].
  rewrite (checkProxyConnections_config (set_lastStats (Some a) s) s) by reflexivity.
  rewrite (checkProxyConnections_config (set_lastStats (Some b) s) s) by reflexivity.
  match goal with
  | |- context [set_totalStats ?t0 (set_lastStats (Some a) s)] => set (t := t0)
  end.
  change (set_totalStats t (set_lastStats (Some a) s))
    with (set_lastStats (Some a) (set_totalStats t s)).
  change (set_totalStats t (set_lastStats (Some b) s))
    with (set_lastStats (Some b) (set_totalStats t s)).
  rewrite !fanOut_set_lastStats.
  destruct (fanOut (callbacks s) (tick_reactions inp) (set_totalStats t s))
    as [[s' out] threw].
  destruct threw; split; reflexivity.
Qed.

(** X8.  No tick changes the configuration.  A tick whose subscribers call no
    method of the instance leaves the subscriber list and the timer handle as
    they were.  After a tick in which no subscriber throws the held baseline
    is the capture of that tick when there was one, and the earlier baseline
    otherwise; in any case it is one of the two. *)
Theorem tick_frame (s : TrafficLens) :
  config (fst (intervalCallback inp s)) = config s /\
  (callsNothing inp = true ->
   callbacks (fst (intervalCallback inp s)) = callbacks s /\
   intervalId (fst (intervalCallback inp s)) = intervalId s) /\
  (hasThrow inp = false ->
   lastStats (fst (intervalCallback inp s))
   = match getCurrentStats (tick_networkStats inp) (tick_captureTime inp) with
     | Some cur => Some cur
     | None => lastStats s
     end) /\
  (lastStats (fst (intervalCallback inp s)) = lastStats s \/
   lastStats (fst (intervalCallback inp s))
   = getCurrentStats (tick_networkStats inp) (tick_captureTime inp)).
Proof.
  unfold intervalCallback, callsNothing, hasThrow.
  destruct (getCurrentStats _ _) as [cur|]; [|simpl; auto].
  destruct (lastStats s) as [last|] eqn:Hlast; [|simpl; auto].
  match goal with
  | |- context [fanOut ?cbs ?rs ?s0] =>
      pose proof (fanOut_subscribers cbs rs s0) as [_ Hall];
      pose proof (fanOut_frame cbs rs s0) as (_ & Hl & Hc);
      pose proof (fanOut_without_calls cbs rs s0) as Hq;
      destruct (fanOut cbs rs s0) as [[s' out] threw]
  end; cbn [fst snd] in *.
  split; [now destruct threw|]. split; [|split].
  - intros Hno. destruct (Hq Hno) as [Hcb Hid]. now destruct threw.
  - intros Hno. destruct (Hall Hno) as [_ ->]. reflexivity.
  - destruct threw; simpl; [left|right; reflexivity].
    rewrite Hl. simpl. now rewrite Hlast.
Qed.

(** X9.  The published connection count is always the one of this tick's
    proxy view, matched or not, so it is never negative; unlike the volume
    and speed of [proxied] it is never carried over from an earlier tick. *)
Theorem published_connection_count_is_current (s : TrafficLens) (p : Publish) :
  In p (snd (intervalCallback inp s)) ->
  activeConnections (proxied (payload p))
  = pr_activeConnections (checkProxyConnections s (tick_netConnections inp)
                                                (tick_proxyNetworkStats inp)) /\
  0 <= activeConnections (proxied (payload p)).
Proof.
  intros Hin.
  destruct (published_payload inp s p Hin) as (cur & last & _ & _ & _ & Hp & _).
  assert (Hc : activeConnections (proxied (payload p))
               = pr_activeConnections
                   (checkProxyConnections s (tick_netConnections inp)
                                          (tick_proxyNetworkStats inp))).
  { rewrite Hp. unfold updateTotals. destruct (pr_stats _); reflexivity. }
  split; [exact Hc|]. rewrite Hc.
  apply proxy_view_count_nonneg.
Qed.


End AggregatorFacts.


(** When the first of two subscribers throws, the second is not called and
    the baseline stays the one of the tick before. *)
Example throwing_subscriber_ends_fan_out :
  map subscriber (snd (intervalCallback (Fixtures.throwingTick 10000)
                                        Fixtures.seededPair)) = [0%nat] /\
  lastStats (fst (intervalCallback (Fixtures.throwingTick 10000)
                                   Fixtures.seededPair))
  = Some (mkSnapshot (mkMetrics 2000 1000 200 100) 5000).
Proof. split; reflexivity. Qed.

(** When the first of two subscribers calls the disposer of the second, the
    second is still called in this fan-out, and is gone afterwards. *)
Example disposed_in_fan_out_is_still_called :
  map subscriber (snd (intervalCallback (Fixtures.disposingTick 10000)
                                        Fixtures.seededPair)) = [0%nat; 1%nat] /\
  callbacks (fst (intervalCallback (Fixtures.disposingTick 10000)
                                   Fixtures.seededPair)) = [0%nat].
Proof. split; reflexivity. Qed.

(** X9, at a tick whose proxy view matches no interface. *)
Lemma published_connection_count_is_current_witness :
  exists p,
    In p (snd (intervalCallback (Fixtures.unmatchedTick 15000) Fixtures.warmMonitor)) /\
    activeConnections (proxied (payload p)) = 2.
Proof.
  exists (mkPublish 0%nat
            (mkTrafficStats (mkProxyMetrics (mkMetrics 2000 1000 200 100) 2)
                            (mkMetrics 2000 1000 200 100) 15000)).
  assert (Hin : In (mkPublish 0%nat
                      (mkTrafficStats (mkProxyMetrics (mkMetrics 2000 1000 200 100) 2)
                                      (mkMetrics 2000 1000 200 100) 15000))
                   (snd (intervalCallback (Fixtures.unmatchedTick 15000)
                                          Fixtures.warmMonitor))).
  { left. reflexivity. }
  split; [exact Hin|].
  exact (proj1 (published_connection_count_is_current
                  (Fixtures.unmatchedTick 15000) Fixtures.warmMonitor _ Hin)).
Defined.


(** ** Control, registry and traces *)

Section LifecycleFacts.

(** A callback that is not registered stays unregistered through a tick in
    which no subscriber subscribes it. *)
Lemma perform_keeps_absent (cb : CallbackId) (c : Call) (s : TrafficLens) :
  isCallSubscribeOf cb c = false ->
  ~ In cb (callbacks s) -> ~ In cb (callbacks (perform c s)).
Proof.
  destruct c as [h| |c|c]; simpl; intros Hc Habs.
  - unfold start. destruct (intervalId s); exact Habs.
  - unfold stop. destruct (intervalId s); exact Habs.
  - intros Hin. apply in_app_or in Hin. destruct Hin as [Hin|[->|[]]]; [auto|].
    now rewrite Nat.eqb_refl in Hc.
  - intros Hin. apply filter_In in Hin. now destruct Hin.
Qed.

Lemma react_keeps_absent (cb : CallbackId) (r : Reaction) (s : TrafficLens) :
  existsb (isCallSubscribeOf cb) (calls r) = false ->
  ~ In cb (callbacks s) -> ~ In cb (callbacks (react r s)).
Proof.
  unfold react. generalize (calls r) as cs. intros cs. revert s.
  induction cs as [|c cs IH]; intros s; simpl; [auto|].
  intros Hc Habs. apply orb_false_elim in Hc. destruct Hc as [Hc Hcs].
  apply IH; [exact Hcs|]. now apply perform_keeps_absent.
Qed.

Lemma fanOut_keeps_absent (cb : CallbackId) (cbs : list CallbackId) :
  forall reactions s,
    existsb (fun r => existsb (isCallSubscribeOf cb) (calls r)) reactions = false ->
    ~ In cb (callbacks s) ->
    ~ In cb (callbacks (fst (fst (fanOut cbs reactions s)))).
Proof.
  induction cbs as [|c cbs IH]; intros reactions s Hr Habs; simpl; [exact Habs|].
  assert (Hhd : existsb (isCallSubscribeOf cb) (calls (hd quiet reactions)) = false
                /\ existsb (fun r => existsb (isCallSubscribeOf cb) (calls r))
                           (tl reactions) = false).
  { destruct reactions as [|r rs]; simpl in *; [auto|].
    now apply orb_false_elim in Hr. }
  destruct Hhd as [Hhd Htl].
  pose proof (react_keeps_absent cb _ s Hhd Habs) as Habs1.
  destruct (throws (hd quiet reactions)); simpl; [exact Habs1|].
  specialize (IH (tl reactions) _ Htl Habs1).
  destruct (fanOut cbs (tl reactions) (react (hd quiet reactions) s))
    as [[s2 out] threw]. exact IH.
Qed.

Lemma intervalCallback_keeps_absent (cb : CallbackId) (inp : TickInput)
    (s : TrafficLens) :
  isSubscribeOf cb (EvResume inp) = false ->
  ~ In cb (callbacks s) ->
  ~ In cb (callbacks (fst (intervalCallback inp s))).
Proof.
  simpl. intros Hr Habs. unfold intervalCallback.
  destruct (getCurrentStats _ _) as [cur|]; [|exact Habs].
  destruct (lastStats s); [|exact Habs].
  match goal with
  | |- context [fanOut ?cbs ?rs ?s0] =>
      pose proof (fanOut_keeps_absent cb cbs rs s0 Hr Habs) as Hf;
      destruct (fanOut cbs rs s0) as [[s' out] threw]
  end.
  simpl in *. now destruct threw.
Qed.

Lemma intervalCallback_subscribers (inp : TickInput) (s : TrafficLens) (p : Publish) :
  In p (snd (intervalCallback inp s)) -> In (subscriber p) (callbacks s).
Proof.
  intros Hin. destruct (published_payload inp s p Hin) as (_ & _ & _ & _ & H & _).
  exact H.
Qed.

(** X11.  [stop()] is idempotent, does nothing at all on an instance that is
    not running, and after a successful [start()] gives back the instance as
    it was before that start. *)
Theorem stop_is_idempotent_and_undoes_start (s : TrafficLens) :
  stop (stop s) = stop s /\
  (intervalId s = None -> stop s = s) /\
  (forall h s', start h s = Ok s' -> stop s' = s).
Proof.
  split; [|split].
  - unfold stop. destruct (intervalId s) eqn:Hid; simpl; [reflexivity|].
    now rewrite Hid.
  - intros Hid. unfold stop. now rewrite Hid.
  - intros h s'. unfold start. destruct (intervalId s) eqn:Hid; [discriminate|].
    intros [= <-]. unfold stop. simpl. destruct s; simpl in *. now subst.
Qed.

(** X12.  Whatever happens to an instance, its configuration stays the one
    stored at construction; and calls of [start], [stop], [subscribe] and the
    disposers, and the firing of the timer, leave the statistics, the
    baseline and the publish log untouched: only a resumed tick writes
    them. *)
Theorem only_ticks_write_statistics (w w' : World) (evs : list Event) :
  run w evs = Some w' ->
  config (instance w') = config (instance w) /\
  (filter isResume evs = [] ->
   totalStats (instance w') = totalStats (instance w) /\
   lastStats (instance w') = lastStats (instance w) /\
   published w' = published w).
Proof.
  revert w. induction evs as [|e evs IH]; intros w Hrun; simpl in *.
  - injection Hrun as <-. auto.
  - destruct (step w e) as [w1|] eqn:Hstep; [|discriminate].
    destruct (IH w1 Hrun) as [Hc Hf].
    split; [rewrite Hc; exact (step_config w w1 e Hstep)|].
    destruct e as [| |cb|cb| |inp]; simpl; try discriminate; intros Hnil;
      destruct (Hf Hnil) as (Ht & Hl & Hp); rewrite Ht, Hl, Hp;
      simpl in Hstep.
    + unfold start in Hstep. destruct (intervalId (instance w));
        injection Hstep as <-; auto.
    + injection Hstep as <-. simpl. unfold stop.
      destruct (intervalId (instance w)); auto.
    + injection Hstep as <-. auto.
    + injection Hstep as <-. auto.
    + destruct (intervalId (instance w)); [|discriminate].
      injection Hstep as <-. auto.
Qed.

(** X13.  A held baseline is never cleared: once an instance holds a
    snapshot it holds one after any further events, [stop()] and [start()]
    included, so every later tick with a capture publishes. *)
Theorem baseline_is_never_cleared (w w' : World) (evs : list Event) :
  lastStats (instance w) <> None ->
  run w evs = Some w' ->
  lastStats (instance w') <> None.
Proof.
  revert w. induction evs as [|e evs IH]; intros w Hheld Hrun; simpl in *.
  - injection Hrun as <-. exact Hheld.
  - destruct (step w e) as [w1|] eqn:Hstep; [|discriminate].
    apply (IH w1); [|exact Hrun]. clear IH Hrun.
    destruct e as [| |cb|cb| |inp]; simpl in Hstep.
    + unfold start in Hstep. destruct (intervalId (instance w));
        injection Hstep as <-; exact Hheld.
    + injection Hstep as <-. simpl. unfold stop.
      destruct (intervalId (instance w)); exact Hheld.
    + injection Hstep as <-. exact Hheld.
    + injection Hstep as <-. exact Hheld.
    + destruct (intervalId (instance w)); [|discriminate].
      injection Hstep as <-. exact Hheld.
    + destruct (inFlight w); [discriminate|].
      destruct (intervalCallback_cases inp (instance w))
        as [Hi | [[cur Hi] | (cur & last & _ & _ & _ & _ & Hl)]].
      * rewrite Hi in Hstep. injection Hstep as <-. exact Hheld.
      * rewrite Hi in Hstep. injection Hstep as <-. discriminate.
      * destruct (intervalCallback inp (instance w)) as [s' out].
        injection Hstep as <-. exact Hl.
Qed.

Lemma step_without_callback (cb : CallbackId) (w w' : World) (e : Event) :
  ~ In cb (callbacks (instance w)) ->
  isSubscribeOf cb e = false ->
  step w e = Some w' ->
  ~ In cb (callbacks (instance w')) /\
  exists more, published w' = (published w ++ more)%list /\
               forall p, In p more -> subscriber p <> cb.
Proof.
  intros Habs Hsub Hstep.
  assert (Hnone : exists more : list Publish,
             published w = (published w ++ more)%list /\
             forall p, In p more -> subscriber p <> cb).
  { exists []. rewrite app_nil_r. split; [reflexivity|]. intros p []. }
  destruct e as [| |c|c| |inp].
  - simpl in Hstep. unfold start in Hstep. destruct (intervalId (instance w));
      injection Hstep as <-; auto.
  - simpl in Hstep. injection Hstep as <-. simpl. unfold stop.
    destruct (intervalId (instance w)); auto.
  - simpl in Hstep, Hsub. injection Hstep as <-. simpl. split; [|exact Hnone].
    intros Hin. apply in_app_or in Hin. destruct Hin as [Hin|[->|[]]]; [auto|].
    now rewrite Nat.eqb_refl in Hsub.
  - simpl in Hstep. injection Hstep as <-. simpl. split; [|exact Hnone].
    intros Hin. apply filter_In in Hin. now destruct Hin.
  - simpl in Hstep. destruct (intervalId (instance w)); [|discriminate].
    injection Hstep as <-. auto.
  - pose proof (intervalCallback_keeps_absent cb inp (instance w) Hsub Habs) as Hcb.
    pose proof (intervalCallback_subscribers inp (instance w)) as Hsubs.
    simpl in Hstep. destruct (inFlight w); [discriminate|].
    destruct (intervalCallback inp (instance w)) as [s' out].
    injection Hstep as <-. cbn [fst snd instance published] in *.
    split; [exact Hcb|].
    exists out. split; [reflexivity|].
    intros p Hp Heq. apply Habs. rewrite <- Heq. now apply Hsubs.
Qed.

(** X14.  Take an event after which [cb] is not registered: a call of a
    disposer of [cb], or a tick during whose fan-out a subscriber called one
    (the rest of that fan-out may still call [cb]; it belongs to the event).
    From then on [cb] is never called, not even by a tick that was already
    awaiting the provider, for as long as nobody subscribes it anew. *)
Theorem disposed_callback_is_never_called (cb : CallbackId) (w w0 w' : World)
    (e : Event) (evs : list Event) :
  step w e = Some w0 ->
  (e = EvDispose cb \/ (isResume e = true /\ ~ In cb (callbacks (instance w0)))) ->
  forallb (fun e' => negb (isSubscribeOf cb e')) evs = true ->
  run w0 evs = Some w' ->
  exists more, published w' = (published w0 ++ more)%list /\
               forall p, In p more -> subscriber p <> cb.
Proof.
  intros Hstep Hd Hns Hrun.
  assert (Habs : ~ In cb (callbacks (instance w0))).
  { destruct Hd as [-> | [_ H]]; [|exact H].
    simpl in Hstep. injection Hstep as <-. simpl.
    intros Hin. apply filter_In in Hin. destruct Hin as [_ Hk].
    unfold keepOthers in Hk. now rewrite Nat.eqb_refl in Hk. }
  clear Hstep Hd. revert w0 Hns Hrun Habs.
  induction evs as [|e1 evs IH]; intros w0 Hns Hrun Habs; simpl in *.
  - injection Hrun as <-. exists []. rewrite app_nil_r.
    split; [reflexivity|]. intros p [].
  - apply andb_prop in Hns. destruct Hns as [He Hns]. apply negb_true_iff in He.
    destruct (step w0 e1) as [w1|] eqn:Hstep; [|discriminate].
    destruct (step_without_callback cb w0 w1 e1 Habs He Hstep)
      as (Habs1 & more1 & Hp1 & Hm1).
    destruct (IH w1 Hns Hrun Habs1) as (more & Hp & Hm).
    exists (more1 ++ more)%list. split.
    + rewrite Hp, Hp1. now rewrite app_assoc.
    + intros p Hin. apply in_app_or in Hin. destruct Hin; auto.
Qed.

End LifecycleFacts.

(** X13, at an instance seeded once, then stopped and started again. *)
Lemma baseline_is_never_cleared_witness :
  exists w',
    run (mkWorld Fixtures.seededMonitor 2%positive 0 []) [EvStop; EvStart; EvTimer]
    = Some w' /\
    lastStats (instance w') <> None.
Proof.
  eexists. split; [reflexivity|].
  apply (baseline_is_never_cleared
           (mkWorld Fixtures.seededMonitor 2%positive 0 [])
           _ [EvStop; EvStart; EvTimer]).
  - discriminate.
  - reflexivity.
Defined.

(** X12, at the trace of the unit test up to its second tick. *)
Lemma only_ticks_write_statistics_witness :
  exists w',
    run (newWorld Fixtures.monitor) Fixtures.warmUp = Some w' /\
    config (instance w') = mkConfig 1080 (Some 5000).
Proof.
  eexists. split; [reflexivity|].
  exact (proj1 (only_ticks_write_statistics (newWorld Fixtures.monitor) _
                  Fixtures.warmUp eq_refl)).
Defined.

(** X14, at a tick whose first subscriber calls the disposer of the second:
    the second is still called in that fan-out and never after it. *)
Lemma disposed_callback_is_never_called_witness :
  exists w0 w',
    step (mkWorld Fixtures.seededPair 2%positive 2 [])
         (EvResume (Fixtures.disposingTick 10000)) = Some w0 /\
    map subscriber (published w0) = [0%nat; 1%nat] /\
    run w0 [EvResume (Fixtures.matchedTick 15000)] = Some w' /\
    exists more, published w' = (published w0 ++ more)%list /\
                 forall p, In p more -> subscriber p <> 1%nat.
Proof.
  do 2 eexists. split; [reflexivity|]. split; [reflexivity|].
  split; [reflexivity|].
  apply (disposed_callback_is_never_called 1%nat
           (mkWorld Fixtures.seededPair 2%positive 2 [])
           _ _ (EvResume (Fixtures.disposingTick 10000))
           [EvResume (Fixtures.matchedTick 15000)]).
  - reflexivity.
  - right. split; [reflexivity|]. simpl. intros [H|[]]. discriminate.
  - reflexivity.
  - reflexivity.
Defined.

(** ** Formatting *)

Section FormattingFacts.

Import Format.

Lemma kilo_positive : (0 < inject_Z 1024)%Q.
Proof. reflexivity. Qed.

Lemma scaled_ge (x : Q) (n : Z) :
  (inject_Z (n * 1024) <= x)%Q -> (inject_Z n <= x / inject_Z 1024)%Q.
Proof.
  intros H. apply Qle_shift_div_l; [exact kilo_positive|].
  rewrite <- inject_Z_mult. exact H.
Qed.

Lemma scaled_lt (x : Q) (n : Z) :
  (x < inject_Z (n * 1024))%Q -> (x / inject_Z 1024 < inject_Z n)%Q.
Proof.
  intros H. apply Qlt_shift_div_r; [exact kilo_positive|].
  rewrite <- inject_Z_mult. exact H.
Qed.

Lemma guard_large (x : Q) (i : nat) :
  (inject_Z 1024 <= x)%Q -> (i < 3)%nat -> guard x i = true.
Proof.
  intros Hx Hi. unfold guard. apply andb_true_intro. split.
  - now apply Qle_bool_iff.
  - apply Nat.ltb_lt. simpl. lia.
Qed.

Lemma guard_small (x : Q) (i : nat) :
  (x < inject_Z 1024)%Q -> guard x i = false.
Proof.
  intros Hx. unfold guard.
  destruct (Qle_bool (inject_Z 1024) x) eqn:Hle; [|reflexivity].
  apply Qle_bool_iff in Hle. now apply Qlt_not_le in Hx.
Qed.

(** X15.  [formatBytes] picks its unit by the size of the number alone and
    stops at GB: below 1024 (negative numbers included) the number is printed
    as it is in B, from 1024 it is divided by 1024 once for KB, from 1024^2
    twice for MB, and from 1024^3 on three times for GB however large it
    is. *)
Theorem formatBytes_unit_ranges (x : Q) :
  ((x < inject_Z 1024)%Q ->
   formatBytes x = toFixed 2 x ++ " B") /\
  ((inject_Z 1024 <= x)%Q -> (x < inject_Z (1024 * 1024))%Q ->
   formatBytes x = toFixed 2 (x / inject_Z 1024) ++ " KB") /\
  ((inject_Z (1024 * 1024) <= x)%Q -> (x < inject_Z (1024 * 1024 * 1024))%Q ->
   formatBytes x = toFixed 2 (x / inject_Z 1024 / inject_Z 1024) ++ " MB") /\
  ((inject_Z (1024 * 1024 * 1024) <= x)%Q ->
   formatBytes x
   = toFixed 2 (x / inject_Z 1024 / inject_Z 1024 / inject_Z 1024) ++ " GB").
Proof.
  assert (Hk : (inject_Z 1024 <= inject_Z (1024 * 1024))%Q)
    by (apply Qle_bool_iff; reflexivity).
  assert (Hm : (inject_Z 1024 <= inject_Z (1024 * 1024 * 1024))%Q)
    by (apply Qle_bool_iff; reflexivity).
  unfold formatBytes. change (List.length units - 1)%nat with 3%nat.
  repeat split.
  - intros Hlt. cbn [loop]. now rewrite (guard_small _ _ Hlt).
  - intros Hge Hlt. cbn [loop].
    rewrite (guard_large x 0 Hge) by lia.
    now rewrite (guard_small _ 1 (scaled_lt x 1024 Hlt)).
  - intros Hge Hlt. cbn [loop].
    rewrite (guard_large x 0 (Qle_trans _ _ _ Hk Hge)) by lia.
    rewrite (guard_large _ 1 (scaled_ge x 1024 Hge)) by lia.
    now rewrite (guard_small _ 2 (scaled_lt _ 1024 (scaled_lt x (1024 * 1024) Hlt))).
  - intros Hge. cbn [loop].
    rewrite (guard_large x 0 (Qle_trans _ _ _ Hm Hge)) by lia.
    rewrite (guard_large _ 1
               (Qle_trans _ _ _ Hk (scaled_ge x (1024 * 1024) Hge))) by lia.
    now rewrite (guard_large _ 2
                   (scaled_ge _ 1024 (scaled_ge x (1024 * 1024) Hge))) by lia.
Qed.









End FormattingFacts.


(** ** Construction and the first publish *)

Section ConstructionFacts.

Variable c : Config.
Variable now : Z.

(** X17.  The constructor throws exactly when an interval is given that is
    not zero and is below 3000; the message is the same each time. *)
Theorem constructor_throws_iff :
  (exists msg, constructor c now = Throw msg) <->
  (exists n, updateInterval c = Some n /\ n <> 0 /\ n < 3000).
Proof.
  unfold constructor, intervalTooShort. split.
  - intros [msg H]. destruct (updateInterval c) as [n|]; simpl in H; [|discriminate].
    exists n. destruct (Z.eqb_spec n 0); simpl in H; [discriminate|].
    destruct (Z.ltb_spec n 3000); [auto|discriminate].
  - intros (n & -> & Hn & Hlt). simpl.
    destruct (Z.eqb_spec n 0); [contradiction|]. simpl.
    destruct (Z.ltb_spec n 3000); [eauto|lia].
Qed.


Lemma run_subscribes (cbs : list CallbackId) : forall w,
  run w (map EvSubscribe cbs)
  = Some (mkWorld (set_callbacks (callbacks (instance w) ++ cbs)%list (instance w))
                  (nextTimer w) (inFlight w) (published w)).
Proof.
  induction cbs as [|cb cbs IH]; intros w; simpl.
  - rewrite app_nil_r. destruct w as [[] ? ? ?]. reflexivity.
  - rewrite IH. simpl. now rewrite <- app_assoc.
Qed.

Lemma run_app (evs1 evs2 : list Event) : forall w,
  run w (evs1 ++ evs2)%list
  = match run w evs1 with
    | Some w1 => run w1 evs2
    | None => None
    end.
Proof.
  induction evs1 as [|e evs1 IH]; intros w; simpl; [reflexivity|].
  destruct (step w e); [apply IH|reflexivity].
Qed.

(** When no subscriber throws, a fan-out is one call per callback, in
    order, all with the statistics of the instance. *)
Lemma fanOut_when_all_return (cbs : list CallbackId) : forall reactions s,
  existsb throws reactions = false ->
  snd (fst (fanOut cbs reactions s))
  = map (fun cb => mkPublish cb (totalStats s)) cbs /\
  snd (fanOut cbs reactions s) = false.
Proof.
  induction cbs as [|cb cbs IH]; intros reactions s Hno; simpl; [auto|].
  assert (Hhd : throws (hd quiet reactions) = false
                /\ existsb throws (tl reactions) = false).
  { destruct reactions as [|r rs]; simpl in *; [auto|].
    now apply orb_false_elim in Hno. }
  destruct Hhd as [Hhd Htl]. rewrite Hhd.
  destruct (react_frame (hd quiet reactions) s) as (Ht & _ & _).
  specialize (IH (tl reactions) (react (hd quiet reactions) s) Htl).
  destruct (fanOut cbs (tl reactions) (react (hd quiet reactions) s))
    as [[s2 out] threw]. simpl in *.
  destruct IH as [-> ->]. now rewrite Ht.
Qed.

(** X19.  On a new instance with subscribers [cbs], started once, the first
    tick with a capture publishes nothing; the second, when none of its
    subscribers throws, publishes once to each subscriber in order and makes
    its capture the baseline, and what it publishes is computed from the
    second tick's capture and proxy view alone, on top of the zeros of
    construction. *)
Theorem first_publish_comes_from_second_capture (s : TrafficLens)
    (cbs : list CallbackId) (inp1 inp2 : TickInput) (cur1 cur2 : NetworkSnapshot) :
  constructor c now = Ok s ->
  getCurrentStats (tick_networkStats inp1) (tick_captureTime inp1) = Some cur1 ->
  getCurrentStats (tick_networkStats inp2) (tick_captureTime inp2) = Some cur2 ->
  hasThrow inp2 = false ->
  exists w1 w2,
    run (newWorld s)
        (map EvSubscribe cbs ++ [EvStart; EvTimer; EvResume inp1])%list = Some w1 /\
    published w1 = [] /\
    run w1 [EvTimer; EvResume inp2] = Some w2 /\
    published w2
    = map (fun cb =>
             mkPublish cb
               (updateTotals (snapshot_metrics cur2)
                  (checkProxyConnections s (tick_netConnections inp2)
                                         (tick_proxyNetworkStats inp2))
                  (tick_publishTime inp2) (initialStats now))) cbs /\
    lastStats (instance w2) = Some cur2.
Proof.
  intros Hnew Hc1 Hc2 Hno.
  assert (Hs : s = mkTrafficLens None (initialStats now) None [] (storedConfig c)).
  { unfold constructor in Hnew. destruct (intervalTooShort c); [discriminate|].
    now injection Hnew as <-. }
  subst s.
  set (s0 := mkTrafficLens None (initialStats now) None [] (storedConfig c)).
  set (t := updateTotals (snapshot_metrics cur2)
              (checkProxyConnections s0 (tick_netConnections inp2)
                                     (tick_proxyNetworkStats inp2))
              (tick_publishTime inp2) (initialStats now)).
  set (s1 := mkTrafficLens (Some cur1) (initialStats now) (Some 1%positive) cbs
                           (storedConfig c)).
  destruct (fanOut_when_all_return cbs (tick_reactions inp2) (set_totalStats t s1) Hno)
    as [Hout Hthrew].
  destruct (fanOut cbs (tick_reactions inp2) (set_totalStats t s1))
    as [[s' out] threw] eqn:Hf.
  cbn [fst snd] in Hout, Hthrew. subst out threw.
  exists (mkWorld s1 2%positive 0 []),
         (mkWorld (set_lastStats (Some cur2) s') 2%positive 0
                  (map (fun cb => mkPublish cb t) cbs)).
  split; [|split; [reflexivity|split; [|split; reflexivity]]].
  - rewrite run_app, run_subscribes. simpl.
    unfold intervalCallback. rewrite Hc1. reflexivity.
  - simpl. unfold intervalCallback. rewrite Hc2. cbn [lastStats s1 callbacks totalStats].
    change (checkProxyConnections s1 (tick_netConnections inp2)
                                  (tick_proxyNetworkStats inp2))
      with (checkProxyConnections s0 (tick_netConnections inp2)
                                  (tick_proxyNetworkStats inp2)).
    fold t. rewrite Hf. reflexivity.
Qed.

End ConstructionFacts.


(** X19, at the two ticks of the unit test with its two subscribers. *)
Lemma first_publish_comes_from_second_capture_witness :
  exists w2,
    run (newWorld Fixtures.monitor)
        [EvSubscribe 1%nat; EvSubscribe 2%nat; EvStart;
         EvTimer; EvResume (Fixtures.matchedTick 5000);
         EvTimer; EvResume (Fixtures.matchedTick 10000)] = Some w2 /\
    published w2
    = [ mkPublish 1%nat
          (mkTrafficStats (mkProxyMetrics (mkMetrics 2000 1000 200 100) 2)
                          zeroMetrics 10000);
        mkPublish 2%nat
          (mkTrafficStats (mkProxyMetrics (mkMetrics 2000 1000 200 100) 2)
                          zeroMetrics 10000) ].
Proof.
  destruct (first_publish_comes_from_second_capture
              (mkConfig 1080 None) 0 Fixtures.monitor [1%nat; 2%nat]
              (Fixtures.matchedTick 5000) (Fixtures.matchedTick 10000)
              (mkSnapshot (mkMetrics 2000 1000 200 100) 5000)
              (mkSnapshot (mkMetrics 2000 1000 200 100) 10000)
              eq_refl eq_refl eq_refl eq_refl)
    as (w1 & w2 & H1 & _ & H2 & Hp & _).
  exists w2. split.
  - change [EvSubscribe 1%nat; EvSubscribe 2%nat; EvStart;
            EvTimer; EvResume (Fixtures.matchedTick 5000);
            EvTimer; EvResume (Fixtures.matchedTick 10000)]
      with ((map EvSubscribe [1%nat; 2%nat]
             ++ [EvStart; EvTimer; EvResume (Fixtures.matchedTick 5000)])
            ++ [EvTimer; EvResume (Fixtures.matchedTick 10000)])%list.
    rewrite run_app, H1. exact H2.
  - rewrite Hp. reflexivity.
Defined.
